(** * Home.tsx: registration list, form validation, filtering

    A shallow embedding of [client/src/pages/Home.tsx]: the registration
    record, the form, the component state with its setters, the handlers
    [validateForm], [handleSubmit], [handleDelete], the derived view
    [filteredInscriptions] and the mount effect that reloads the list.

    Strings.  A JavaScript string is a sequence of UTF-16 code units.  Here a
    string is a [string] whose characters stand for the code units 0..255
    (Basic Latin and Latin-1 Supplement).  On that range [trim], the regular
    expression class [\s] and [toLowerCase] are modelled exactly; the range
    is closed under all three. *)

From Stdlib Require Import String Ascii List Bool Arith Lia.
From stdpp Require Import gmap strings list.

Local Open Scope string_scope.
Local Open Scope list_scope.
Local Open Scope nat_scope.

(** ** JavaScript string primitives *)

Module JS.

Definition code (c : ascii) : nat := nat_of_ascii c.

(** WhiteSpace and LineTerminator code units below 256: TAB, LF, VT, FF, CR,
    SP and NBSP.  It is the set removed by [String.prototype.trim] and
    matched by [\s]. *)
Definition isWhiteSpace (c : ascii) : bool :=
  let n := code c in
  ((9 <=? n) && (n <=? 13)) || (n =? 32) || (n =? 160).

Definition isDigit (c : ascii) : bool :=
  let n := code c in (48 <=? n) && (n <=? 57).

(** Code units with a lower-case mapping: A-Z, and U+00C0..U+00DE without
    the multiplication sign U+00D7. *)
Definition isUpper (c : ascii) : bool :=
  let n := code c in
  ((65 <=? n) && (n <=? 90)) ||
  ((192 <=? n) && (n <=? 222) && negb (n =? 215)).

(** Code units that are the lower case of another: a-z, and U+00E0..U+00FE
    without the division sign U+00F7. *)
Definition isLower (c : ascii) : bool :=
  let n := code c in
  ((97 <=? n) && (n <=? 122)) ||
  ((224 <=? n) && (n <=? 254) && negb (n =? 247)).

(** Code units that [toLowerCase] neither changes nor produces. *)
Definition caseless (c : ascii) : bool := negb (isUpper c) && negb (isLower c).

Definition lowerChar (c : ascii) : ascii :=
  if isUpper c then ascii_of_nat (code c + 32) else c.

(** [s.toLowerCase()] *)
Fixpoint toLowerCase (s : string) : string :=
  match s with
  | EmptyString => EmptyString
  | String c s' => String (lowerChar c) (toLowerCase s')
  end.

Fixpoint trimStart (s : string) : string :=
  match s with
  | EmptyString => EmptyString
  | String c s' => if isWhiteSpace c then trimStart s' else s
  end.

(** Removes trailing white space: a character is dropped when it is white
    space and everything after it has been dropped. *)
Fixpoint trimEnd (s : string) : string :=
  match s with
  | EmptyString => EmptyString
  | String c s' =>
      match trimEnd s' with
      | EmptyString => if isWhiteSpace c then EmptyString else String c EmptyString
      | t => String c t
      end
  end.

(** [s.trim()] *)
Definition trim (s : string) : string := trimEnd (trimStart s).

(** [s.replace(/\s/g, "")] *)
Fixpoint removeWhiteSpace (s : string) : string :=
  match s with
  | EmptyString => EmptyString
  | String c s' =>
      if isWhiteSpace c then removeWhiteSpace s' else String c (removeWhiteSpace s')
  end.

(** [s.startsWith(p)] *)
Fixpoint startsWith (s p : string) {struct p} : bool :=
  match p, s with
  | EmptyString, _ => true
  | String _ _, EmptyString => false
  | String a p', String b s' => Ascii.eqb a b && startsWith s' p'
  end.

(** [s.includes(sub)]: [sub] occurs in [s] at some position. *)
Fixpoint includes (s sub : string) : bool :=
  startsWith s sub ||
  match s with
  | EmptyString => false
  | String _ s' => includes s' sub
  end.

(** Every character of [s] satisfies [p]. *)
Definition allChars (p : ascii -> bool) (s : string) : Prop :=
  forall c, In c (list_ascii_of_string s) -> p c = true.

(** Truthiness of a string value: only the empty string is falsy. *)
Definition truthy (s : string) : bool := negb (String.eqb s "").

(** [a === b] on strings *)
Definition strictEq (a b : string) : bool := String.eqb a b.

End JS.

(** ** Regular expressions

    The fragment of the pattern language used by [phoneRegex]: character
    classes, literals, alternation, grouping, [?] and [{n,m}].  A pattern
    anchored by [^] and [$] (no [m] flag) accepts exactly when the whole
    input is in its language, which is decided by derivatives. *)

Module Regex.

Inductive t : Type :=
| Void : t
| Eps : t
| Class : (ascii -> bool) -> t
| Cat : t -> t -> t
| Alt : t -> t -> t.

Definition Chr (c : ascii) : t := Class (Ascii.eqb c).

Fixpoint Lit (s : string) : t :=
  match s with
  | EmptyString => Eps
  | String c s' => Cat (Chr c) (Lit s')
  end.

(** [r?] *)
Definition Opt (r : t) : t := Alt r Eps.

(** [r{n}] *)
Fixpoint Times (n : nat) (r : t) : t :=
  match n with
  | O => Eps
  | S n' => Cat r (Times n' r)
  end.

(** [r{n,n+k}]: [n] mandatory copies, then up to [k] more, greedily. *)
Fixpoint UpTo (k : nat) (r : t) : t :=
  match k with
  | O => Eps
  | S k' => Opt (Cat r (UpTo k' r))
  end.

Definition Between (n m : nat) (r : t) : t := Cat (Times n r) (UpTo (m - n) r).

Fixpoint nullable (r : t) : bool :=
  match r with
  | Void => false
  | Eps => true
  | Class _ => false
  | Cat a b => nullable a && nullable b
  | Alt a b => nullable a || nullable b
  end.

Fixpoint deriv (c : ascii) (r : t) : t :=
  match r with
  | Void => Void
  | Eps => Void
  | Class p => if p c then Eps else Void
  | Cat a b =>
      if nullable a then Alt (Cat (deriv c a) b) (deriv c b)
      else Cat (deriv c a) b
  | Alt a b => Alt (deriv c a) (deriv c b)
  end.

(** [/^r$/.test(s)] *)
Fixpoint test (r : t) (s : string) : bool :=
  match s with
  | EmptyString => nullable r
  | String c s' => test (deriv c r) s'
  end.

(** The language of a pattern, as a relation. *)
Inductive Matches : t -> string -> Prop :=
| MEps : Matches Eps EmptyString
| MClass p c : p c = true -> Matches (Class p) (String c EmptyString)
| MCat a b u v : Matches a u -> Matches b v -> Matches (Cat a b) (u +:+ v)
| MAltL a b u : Matches a u -> Matches (Alt a b) u
| MAltR a b u : Matches b u -> Matches (Alt a b) u.

End Regex.

(** ** Data model *)

Module Inscription.
Record t : Type := mk {
  id : string;
  userId : string;
  nom : string;
  filiere : string;
  niveau : string;
  telephone : string;
  dateInscription : string;
  heureInscription : string
}.
End Inscription.

Module Form.
Record t : Type := mk {
  nom : string;
  filiere : string;
  niveau : string;
  telephone : string
}.

(** [{ nom: "", filiere: "", niveau: "", telephone: "" }] *)
Definition empty : t := mk "" "" "" "".

(** [{ ...prev, [name]: value }].  A key other than the four fields adds a
    property that nothing reads; the four fields keep their values. *)
Definition set (name value : string) (prev : t) : t :=
  if String.eqb name "nom" then mk value (filiere prev) (niveau prev) (telephone prev)
  else if String.eqb name "filiere" then mk (nom prev) value (niveau prev) (telephone prev)
  else if String.eqb name "niveau" then mk (nom prev) (filiere prev) value (telephone prev)
  else if String.eqb name "telephone" then mk (nom prev) (filiere prev) (niveau prev) value
  else prev.
End Form.

Definition MAX_INSCRIPTIONS : nat := 50.

(** The messages shown through [toast.error] and [toast.success], one
    constructor per message of the source. *)
Inductive Message : Type :=
| MsgNom            (* "Veuillez entrer votre nom complet" *)
| MsgFiliere        (* "Veuillez selectionner votre filiere" *)
| MsgNiveau         (* "Veuillez selectionner votre niveau" *)
| MsgTelephone      (* "Veuillez entrer un numero de telephone camerounais valide" *)
| MsgDoublon        (* "Ce numero de telephone est deja inscrit" *)
| MsgMaximum        (* "Maximum d'inscriptions atteint (50)" *)
| MsgNonTrouvee     (* "Inscription non trouvee" *)
| MsgPasProprietaire (* "Vous ne pouvez supprimer que vos propres inscriptions" *)
| MsgInscrit        (* "Inscription reussie !" *)
| MsgSupprimee.     (* "Inscription supprimee" *)

Inductive Toast : Type :=
| ToastError : Message -> Toast
| ToastSuccess : Message -> Toast.

(** The component state of [Home]: the [useState] cells, and the toasts and
    console errors emitted so far (oldest first). *)
Record State : Type := mkState {
  inscriptions : list Inscription.t;
  formData : Form.t;
  loading : bool;
  currentUserId : string;
  searchNom : string;
  filterFiliere : string;
  filterNiveau : string;
  toasts : list Toast;
  consoleErrors : nat
}.

Definition initialState : State :=
  mkState [] Form.empty false "" "" "" "" [] 0.

(** *** Setters *)

Definition setInscriptions (f : list Inscription.t -> list Inscription.t) (st : State) : State :=
  mkState (f (inscriptions st)) (formData st) (loading st) (currentUserId st)
          (searchNom st) (filterFiliere st) (filterNiveau st) (toasts st) (consoleErrors st).

Definition setFormData (f : Form.t -> Form.t) (st : State) : State :=
  mkState (inscriptions st) (f (formData st)) (loading st) (currentUserId st)
          (searchNom st) (filterFiliere st) (filterNiveau st) (toasts st) (consoleErrors st).

Definition setLoading (b : bool) (st : State) : State :=
  mkState (inscriptions st) (formData st) b (currentUserId st)
          (searchNom st) (filterFiliere st) (filterNiveau st) (toasts st) (consoleErrors st).

Definition setSearchNom (s : string) (st : State) : State :=
  mkState (inscriptions st) (formData st) (loading st) (currentUserId st)
          s (filterFiliere st) (filterNiveau st) (toasts st) (consoleErrors st).

Definition setFilterFiliere (s : string) (st : State) : State :=
  mkState (inscriptions st) (formData st) (loading st) (currentUserId st)
          (searchNom st) s (filterNiveau st) (toasts st) (consoleErrors st).

Definition setFilterNiveau (s : string) (st : State) : State :=
  mkState (inscriptions st) (formData st) (loading st) (currentUserId st)
          (searchNom st) (filterFiliere st) s (toasts st) (consoleErrors st).

Definition toast (t : Toast) (st : State) : State :=
  mkState (inscriptions st) (formData st) (loading st) (currentUserId st)
          (searchNom st) (filterFiliere st) (filterNiveau st) (toasts st ++ [t]) (consoleErrors st).

Definition console_error (st : State) : State :=
  mkState (inscriptions st) (formData st) (loading st) (currentUserId st)
          (searchNom st) (filterFiliere st) (filterNiveau st) (toasts st) (S (consoleErrors st)).

(** ** Form handlers *)

Definition handleInputChange (name value : string) (st : State) : State :=
  setFormData (Form.set name value) st.

Definition handleSelectChange (name value : string) (st : State) : State :=
  setFormData (Form.set name value) st.

(** [/^(\+237|237)?[6][0-9]{8,9}$/] *)
Definition phoneRegex : Regex.t :=
  Regex.Cat (Regex.Opt (Regex.Alt (Regex.Lit "+237") (Regex.Lit "237")))
    (Regex.Cat (Regex.Chr "6") (Regex.Between 8 9 (Regex.Class JS.isDigit))).

(** The phone check of [validateForm]: [phoneRegex.test(cleanPhone)]. *)
Definition validPhone (telephone : string) : bool :=
  let cleanPhone := JS.removeWhiteSpace telephone in
  Regex.test phoneRegex cleanPhone.

(** [inscriptions.some((insc) => insc.telephone === formData.telephone)] *)
Definition phoneTaken (l : list Inscription.t) (telephone : string) : bool :=
  existsb (fun insc => JS.strictEq (Inscription.telephone insc) telephone) l.

(** [validateForm]: the result, and the state with the toast it showed. *)
Definition validateForm (st : State) : bool * State :=
  if negb (JS.truthy (JS.trim (Form.nom (formData st)))) then
    (false, toast (ToastError MsgNom) st)
  else if negb (JS.truthy (Form.filiere (formData st))) then
    (false, toast (ToastError MsgFiliere) st)
  else if negb (JS.truthy (Form.niveau (formData st))) then
    (false, toast (ToastError MsgNiveau) st)
  else if negb (validPhone (Form.telephone (formData st))) then
    (false, toast (ToastError MsgTelephone) st)
  else if phoneTaken (inscriptions st) (Form.telephone (formData st)) then
    (false, toast (ToastError MsgDoublon) st)
  else (true, st).

(** What [handleSubmit] reads from outside the component after its delay:
    the clock and the random generator. *)
Record Env : Type := mkEnv {
  freshId : string;   (* `${Date.now()}-${Math.random()}` *)
  today : string;     (* now.toLocaleDateString("fr-FR", ...) *)
  clock : string      (* now.toLocaleTimeString("fr-FR", ...) *)
}.

(** The record built at lines 150-159 from the values the handler closed
    over ([formData], [currentUserId] of the render [rendered]). *)
Definition newInscription (env : Env) (rendered : State) : Inscription.t :=
  Inscription.mk (freshId env) (currentUserId rendered)
    (Form.nom (formData rendered)) (Form.filiere (formData rendered))
    (Form.niveau (formData rendered)) (Form.telephone (formData rendered))
    (today env) (clock env).

(** The part of [handleSubmit] after the [await]: it runs on the state of
    that moment ([st]) with the values of the render it was started from. *)
Definition handleSubmit_resume (env : Env) (rendered : State) (st : State) : State :=
  let st := setInscriptions (fun prev => newInscription env rendered :: prev) st in
  let st := setFormData (fun _ => Form.empty) st in
  let st := setLoading false st in
  toast (ToastSuccess MsgInscrit) st.

(** The part of [handleSubmit] before the [await] (lines 126-135): whether
    the handler goes on to wait, and the state it leaves. *)
Definition handleSubmit_start (st : State) : bool * State :=
  let (valid, st1) := validateForm st in
  if negb valid then (false, st1)
  else if MAX_INSCRIPTIONS <=? length (inscriptions st) then
    (false, toast (ToastError MsgMaximum) st1)
  else (true, setLoading true st1).

(** [handleSubmit], with nothing else happening during its 500 ms delay. *)
Definition handleSubmit (env : Env) (st : State) : State :=
  let (goes, st2) := handleSubmit_start st in
  if goes then handleSubmit_resume env st st2 else st2.

(** ** Deletion *)

(** [insc.id === id] *)
Definition hasId (id : string) (insc : Inscription.t) : bool :=
  JS.strictEq (Inscription.id insc) id.

Definition handleDelete (id : string) (st : State) : State :=
  match List.find (hasId id) (inscriptions st) with
  | None => toast (ToastError MsgNonTrouvee) st
  | Some inscriptionToDelete =>
      if negb (JS.strictEq (Inscription.userId inscriptionToDelete) (currentUserId st)) then
        toast (ToastError MsgPasProprietaire) st
      else
        let st := setInscriptions
                    (List.filter (fun insc => negb (hasId id insc))) st in
        toast (ToastSuccess MsgSupprimee) st
  end.

(** ** Derived view *)

Definition matchNom (searchNom : string) (insc : Inscription.t) : bool :=
  JS.strictEq searchNom "" ||
  JS.includes (JS.toLowerCase (Inscription.nom insc)) (JS.toLowerCase searchNom) ||
  JS.includes (Inscription.telephone insc) searchNom.

Definition matchFiliere (filterFiliere : string) (insc : Inscription.t) : bool :=
  JS.strictEq filterFiliere "" || JS.strictEq (Inscription.filiere insc) filterFiliere.

Definition matchNiveau (filterNiveau : string) (insc : Inscription.t) : bool :=
  JS.strictEq filterNiveau "" || JS.strictEq (Inscription.niveau insc) filterNiveau.

Definition filteredInscriptions (st : State) : list Inscription.t :=
  List.filter
    (fun insc =>
       matchNom (searchNom st) insc &&
       matchFiliere (filterFiliere st) insc &&
       matchNiveau (filterNiveau st) insc)
    (inscriptions st).

Definition isListFull (st : State) : bool :=
  MAX_INSCRIPTIONS <=? length (inscriptions st).

(** ** Mount effect: reloading the persisted list *)

Section Storage.

(** [JSON.parse] on a stored array of registrations; [None] stands for the
    [SyntaxError] it throws on malformed text. *)
Variable JSON_parse : string -> option (list Inscription.t).

(** The effect of lines 66-75 on a [localStorage] holding [storage]. *)
Definition loadInscriptions (storage : gmap string string) (st : State) : State :=
  match storage !! "inscriptions" with
  | None => st
  | Some stored =>
      if JS.truthy stored then
        match JSON_parse stored with
        | Some parsed => setInscriptions (fun _ => parsed) st
        | None => console_error st
        end
      else st
  end.

End Storage.

(** ** Events of the page *)

Inductive Event : Type :=
| Submit (env : Env)
| Delete (id : string)
| InputChange (name value : string)
| SelectChange (name value : string)
| SearchChange (value : string)
| FiliereFilterChange (value : string)
| NiveauFilterChange (value : string)
| ResetFilters.

Definition step (e : Event) (st : State) : State :=
  match e with
  | Submit env => handleSubmit env st
  | Delete id => handleDelete id st
  | InputChange name value => handleInputChange name value st
  | SelectChange name value => handleSelectChange name value st
  | SearchChange value => setSearchNom value st
  | FiliereFilterChange value =>
      setFilterFiliere (if JS.strictEq value "all" then "" else value) st
  | NiveauFilterChange value =>
      setFilterNiveau (if JS.strictEq value "all" then "" else value) st
  | ResetFilters => setFilterNiveau "" (setFilterFiliere "" (setSearchNom "" st))
  end.

Definition run (es : list Event) (st : State) : State :=
  fold_left (fun st e => step e st) es st.

(** ** The submission with its delay

    Other events may run between the two halves of [handleSubmit].  A page is
    the component state and, while a submission waits for its timer, the
    render its handler was started from. *)

Module Async.

Record Page : Type := mkPage {
  state : State;
  waiting : option State
}.

Inductive Action : Type :=
| Click               (* the form is submitted *)
| Timer (env : Env)   (* the timer of the waiting submission fires *)
| Ui (e : Event).     (* an event of the page other than a submission *)

(** The submit button and the inputs carry
    [disabled={isListFull || loading}] (lines 274-344). *)
Definition submitDisabled (st : State) : bool := isListFull st || loading st.

Definition act (a : Action) (p : Page) : Page :=
  match a with
  | Click =>
      if submitDisabled (state p) then p
      else
        let (goes, st2) := handleSubmit_start (state p) in
        mkPage st2 (if goes then Some (state p) else waiting p)
  | Timer env =>
      match waiting p with
      | Some rendered => mkPage (handleSubmit_resume env rendered (state p)) None
      | None => p
      end
  | Ui (Submit _) => p
  | Ui e => mkPage (step e (state p)) (waiting p)
  end.

Definition run (acts : list Action) (p : Page) : Page :=
  fold_left (fun p a => act a p) acts p.

(** [P] holds of the list and, while a submission started from the render
    [r] waits, the page is [loading] and [Q r] holds of the list. *)
Definition Inv (P : list Inscription.t -> Prop) (Q : State -> list Inscription.t -> Prop)
  (p : Page) : Prop :=
  P (inscriptions (state p)) /\
  forall r, waiting p = Some r ->
            loading (state p) = true /\ Q r (inscriptions (state p)).

End Async.

(** ** The rules as the specification words them *)

(** [sub] occurs in [s]. *)
Definition substringOf (sub s : string) : Prop :=
  exists before after, s = before +:+ sub +:+ after.

(** The view of section 4.2: the search text matched without regard to case
    against the name or the phone, and both selectors matched exactly. *)
Definition spec_matchText (searchNom : string) (insc : Inscription.t) : bool :=
  JS.strictEq searchNom "" ||
  JS.includes (JS.toLowerCase (Inscription.nom insc)) (JS.toLowerCase searchNom) ||
  JS.includes (JS.toLowerCase (Inscription.telephone insc)) (JS.toLowerCase searchNom).

Definition spec_view (st : State) : list Inscription.t :=
  List.filter
    (fun insc =>
       spec_matchText (searchNom st) insc &&
       (JS.strictEq (filterFiliere st) "" ||
        JS.strictEq (Inscription.filiere insc) (filterFiliere st)) &&
       (JS.strictEq (filterNiveau st) "" ||
        JS.strictEq (Inscription.niveau insc) (filterNiveau st)))
    (inscriptions st).

(** What the code selects, as a proposition: the name is compared without
    regard to case, the phone as it is written. *)
Definition selected (st : State) (insc : Inscription.t) : Prop :=
  (searchNom st = "" \/
   substringOf (JS.toLowerCase (searchNom st)) (JS.toLowerCase (Inscription.nom insc)) \/
   substringOf (searchNom st) (Inscription.telephone insc)) /\
  (filterFiliere st = "" \/ Inscription.filiere insc = filterFiliere st) /\
  (filterNiveau st = "" \/ Inscription.niveau insc = filterNiveau st).

(** The checks of a submission in the order of section 4.1, each with the
    message of its failure. *)
Definition spec_checks : list ((State -> bool) * Message) :=
  [ (fun st => negb (String.eqb (JS.trim (Form.nom (formData st))) ""), MsgNom);
    (fun st => negb (String.eqb (Form.filiere (formData st)) ""), MsgFiliere);
    (fun st => negb (String.eqb (Form.niveau (formData st)) ""), MsgNiveau);
    (fun st => Regex.test phoneRegex (JS.removeWhiteSpace (Form.telephone (formData st))),
     MsgTelephone);
    (fun st => negb (phoneTaken (inscriptions st) (Form.telephone (formData st))), MsgDoublon);
    (fun st => length (inscriptions st) <? MAX_INSCRIPTIONS, MsgMaximum) ].

Fixpoint firstFailure (checks : list ((State -> bool) * Message)) (st : State)
  : option Message :=
  match checks with
  | [] => None
  | (passes, msg) :: rest => if passes st then firstFailure rest st else Some msg
  end.

(** The strings accepted by the phone pattern, spelled out. *)
Definition phoneShape (s : string) : Prop :=
  exists prefix digits,
    s = prefix +:+ "6" +:+ digits /\
    (prefix = "" \/ prefix = "+237" \/ prefix = "237") /\
    (String.length digits = 8 \/ String.length digits = 9) /\
    JS.allChars JS.isDigit digits.

(** A request is rejected: an error is shown and nothing else changes, the
    list and the form stay as they were. *)
Definition rejected (msg : Message) (before after : State) : Prop :=
  after = toast (ToastError msg) before.

(** ** Sample data *)

Module Sample.

Definition env1 : Env := mkEnv "1793613600000-0.4271" "2 novembre 2026" "10:00".
Definition env2 : Env := mkEnv "1793613660000-0.9015" "2 novembre 2026" "10:01".

(** Two decimal digits of a number below 100. *)
Definition digits2 (n : nat) : string :=
  String (ascii_of_nat (48 + n / 10)) (String (ascii_of_nat (48 + n mod 10)) "").

(** The [n]-th of a series of registrations with distinct ids and phones,
    all made by the browser "user-a". *)
Definition entry (n : nat) : Inscription.t :=
  Inscription.mk ("17936136000" +:+ digits2 n +:+ "-0.5") "user-a" "Jean Dupont" "iw" "bts1"
    ("6771234" +:+ digits2 n) "1 novembre 2026" "09:00".

Definition entries (n : nat) : list Inscription.t := map entry (seq 0 n).

Definition form (telephone : string) : Form.t :=
  Form.mk "Awa Ngono" "genie-logiciel" "licence" telephone.

(** A page of the browser [user] showing [l], with [f] typed in the form. *)
Definition page (user : string) (l : list Inscription.t) (f : Form.t) : State :=
  mkState l f false user "" "" "" [] 0.

(** A full list, and a form that passes every check of [validateForm]. *)
Definition full : State := page "user-a" (entries 50) (form "+237 699 00 11 22").

(** Three registrations, and a form that passes every check. *)
Definition three : State := page "user-a" (entries 3) (form "+237 699 00 11 22").

(** Three registrations, and a form with the phone of one of them. *)
Definition retyped : State := page "user-a" (entries 3) (form "677123401").

(** A registration made by another browser, between two of "user-a". *)
Definition foreign : Inscription.t :=
  Inscription.mk "1793613600777-0.25" "user-b" "Paul Mbarga" "cmn" "master1" "655000111"
    "1 novembre 2026" "09:30".

Definition mixed : State :=
  page "user-a" [entry 0; foreign; entry 1] Form.empty.

(** The page of "user-a" with the track selector set to "iw". *)
Definition track_iw : State :=
  mkState [entry 0; foreign; entry 1] Form.empty false "user-a" "" "iw" "" [] 0.

(** A stored registration whose phone field holds letters, and the search
    text "abc". *)
Definition lettered : Inscription.t :=
  Inscription.mk "1793613600555-0.75" "user-b" "Marie Fotso" "iw" "bts2" "677-ABC-456"
    "1 novembre 2026" "09:45".

Definition search_abc : State :=
  mkState [lettered] Form.empty false "user-a" "abc" "" "" [] 0.

(** Two forms whose phones differ by white space only. *)
Definition plain : Form.t := form "677123456".
Definition spaced : Form.t := form "677 123 456".

(** A [localStorage] without the list, and one holding text that is not
    JSON. *)
Definition storage_empty : gmap string string := {[ "userId" := "user-a" ]}.
Definition storage_broken : gmap string string :=
  {[ "userId" := "user-a"; "inscriptions" := "[{" ]}.

(** A parser that knows the empty array only. *)
Definition parse (s : string) : option (list Inscription.t) :=
  if String.eqb s "[]" then Some [] else None.

End Sample.

(** ** The rest of the page *)

Definition setCurrentUserId (u : string) (st : State) : State :=
  mkState (inscriptions st) (formData st) (loading st) u
          (searchNom st) (filterFiliere st) (filterNiveau st) (toasts st) (consoleErrors st).

(** An entry of the tables [FILIERES] and [NIVEAUX]. *)
Module Choice.
Record t : Type := mk {
  value : string;
  label : string
}.
End Choice.

(** U+00E9, the accented letter of the labels. *)
Definition e_acute : ascii := ascii_of_nat 233.

Definition FILIERES : list Choice.t :=
  [ Choice.mk "genie-logiciel" ("G" +:+ String e_acute "nie Logiciel");
    Choice.mk "reseau-securite"
      ("R" +:+ String e_acute ("seau et S" +:+ String e_acute ("curit" +:+ String e_acute "")));
    Choice.mk "iw" "IW";
    Choice.mk "cmn" "CMN" ].

Definition NIVEAUX : list Choice.t :=
  [ Choice.mk "bts1" "BTS 1";
    Choice.mk "bts2" "BTS 2";
    Choice.mk "licence" "Licence";
    Choice.mk "master1" "Master 1";
    Choice.mk "master2" "Master 2" ].

(** [table.find((f) => f.value === value)?.label || value] *)
Definition labelIn (table : list Choice.t) (value : string) : string :=
  match List.find (fun f => JS.strictEq (Choice.value f) value) table with
  | Some f => if JS.truthy (Choice.label f) then Choice.label f else value
  | None => value
  end.

Definition getFiliereLabel (value : string) : string := labelIn FILIERES value.

Definition getNiveauLabel (value : string) : string := labelIn NIVEAUX value.


(** The value shown by a filter selector: [filterFiliere || "all"]. *)
Definition selectorValue (filter : string) : string :=
  if JS.truthy filter then filter else "all".

(** What the selector hands to the setter: [value === "all" ? "" : value]. *)
Definition selectorChoice (value : string) : string :=
  if JS.strictEq value "all" then "" else value.



(** A card carries the delete button when [insc.userId === currentUserId]
    (line 547). *)
Definition deleteButton (st : State) (insc : Inscription.t) : bool :=
  JS.strictEq (Inscription.userId insc) (currentUserId st).

(** [handleDelete id] went through: it ended on its confirmation. *)
Definition deletes (id : string) (st : State) : Prop :=
  toasts (handleDelete id st) = toasts st ++ [ToastSuccess MsgSupprimee].

(** The ids drawn by the submissions of a sequence of events. *)
Fixpoint submittedIds (es : list Event) : list string :=
  match es with
  | [] => []
  | Submit env :: rest => freshId env :: submittedIds rest
  | _ :: rest => submittedIds rest
  end.

Definition isSubmit (e : Event) : bool :=
  match e with
  | Submit _ => true
  | _ => false
  end.

(** A registration that satisfies the rules of [validateForm]. *)
Definition wellFormed (insc : Inscription.t) : Prop :=
  JS.trim (Inscription.nom insc) <> "" /\
  Inscription.filiere insc <> "" /\
  Inscription.niveau insc <> "" /\
  validPhone (Inscription.telephone insc) = true.

(** *** The effects on [localStorage] *)

Section Persistence.

Variable JSON_parse : string -> option (list Inscription.t).
Variable JSON_stringify : list Inscription.t -> string.

(** The effect of lines 56-63; [generated] is the text drawn from the clock
    and the random generator, after "user-". *)
Definition initUserId (generated : string) (storage : gmap string string) (st : State)
  : gmap string string * State :=
  let stored := storage !! "userId" in
  match stored with
  | Some userId =>
      if JS.truthy userId then (storage, setCurrentUserId userId st)
      else
        let userId := "user-" +:+ generated in
        (<["userId" := userId]> storage, setCurrentUserId userId st)
  | None =>
      let userId := "user-" +:+ generated in
      (<["userId" := userId]> storage, setCurrentUserId userId st)
  end.

(** The effect of lines 78-80, run for a render showing the list of [st]. *)
Definition saveInscriptions (st : State) (storage : gmap string string)
  : gmap string string :=
  <["inscriptions" := JSON_stringify (inscriptions st)]> storage.

(** Mounting the page on a [localStorage]: the three effects of the first
    render in their order (the third one sees the list of that render, the
    empty one), then the save effect of the render that follows the state
    updates.  When the list was not replaced that last run is skipped by
    React; it would write the text already there. *)
Definition mount (generated : string) (storage : gmap string string)
  : gmap string string * State :=
  let (storage1, st1) := initUserId generated storage initialState in
  let st2 := loadInscriptions JSON_parse storage1 st1 in
  let storage2 := saveInscriptions initialState storage1 in
  let storage3 := saveInscriptions st2 storage2 in
  (storage3, st2).

End Persistence.

(** *** More sample data *)

Module Sample2.

(** A toy codec for the lists [Sample.entries n]: the text is the number of
    entries between brackets. *)
Definition stringify (l : list Inscription.t) : string :=
  "[" +:+ Sample.digits2 (length l) +:+ "]".

Definition parse (s : string) : option (list Inscription.t) :=
  match List.find (fun n => String.eqb s ("[" +:+ Sample.digits2 n +:+ "]")) (seq 0 51) with
  | Some n => Some (Sample.entries n)
  | None => None
  end.

(** The list of [Sample.three] with the entry of another browser in front. *)
Definition shared : State :=
  Sample.page "user-a" (Sample.foreign :: Sample.entries 3) (Sample.form "+237 699 00 11 22").

(** [Sample.shared] with the search text "DUPONT". *)
Definition searching : State :=
  mkState (Sample.foreign :: Sample.entries 3) Form.empty false "user-a" "DUPONT" "" "" [] 0.

(** A visit of "user-a": a try at the entry of another browser, a
    submission, two deletions of its own entries. *)
Definition visit : list Event :=
  [ Delete (Inscription.id Sample.foreign); Submit Sample.env1;
    Delete (Inscription.id (Sample.entry 1)); Delete (freshId Sample.env1) ].

(** A form whose name is made of blanks. *)
Definition blank_name : State :=
  Sample.page "user-a" (Sample.entries 3)
    (Form.mk "   " "genie-logiciel" "licence" "+237 699 00 11 22").

End Sample2.

(** * Properties *)

(** ** Strings *)

Module JSFacts.
Import JS.

Lemma append_nil_l (s : string) : "" +:+ s = s.
Proof. reflexivity. Qed.

Lemma append_cons (c : ascii) (a b : string) : String c a +:+ b = String c (a +:+ b).
Proof. reflexivity. Qed.

Lemma append_nil_r (s : string) : s +:+ "" = s.
Proof. induction s as [|c s IH]; [reflexivity|]. rewrite append_cons, IH. reflexivity. Qed.


Lemma append_eq_nil (a b : string) : a +:+ b = "" -> a = "" /\ b = "".
Proof. destruct a; [rewrite append_nil_l; auto|rewrite append_cons; discriminate]. Qed.

Lemma append_length (a b : string) :
  String.length (a +:+ b) = String.length a + String.length b.
Proof.
  induction a as [|x a IH]; [reflexivity|].
  rewrite append_cons. simpl. rewrite IH. reflexivity.
Qed.

Lemma strictEq_true (a b : string) : strictEq a b = true <-> a = b.
Proof. apply String.eqb_eq. Qed.

Lemma strictEq_false (a b : string) : strictEq a b = false <-> a <> b.
Proof. apply String.eqb_neq. Qed.

Lemma strictEq_refl (a : string) : strictEq a a = true.
Proof. apply String.eqb_refl. Qed.

Lemma truthy_false (s : string) : truthy s = false <-> s = "".
Proof.
  unfold truthy. rewrite negb_false_iff. apply String.eqb_eq.
Qed.

Lemma startsWith_spec (s p : string) :
  startsWith s p = true <-> exists after, s = p +:+ after.
Proof.
  revert s. induction p as [|a p IH]; intros s; simpl.
  - split; [intros _; exists s; reflexivity|reflexivity].
  - destruct s as [|b s].
    + split; [discriminate|]. intros [r Hr]. rewrite append_cons in Hr. discriminate.
    + rewrite andb_true_iff, IH, Ascii.eqb_eq. split.
      * intros [-> [r ->]]. exists r. reflexivity.
      * intros [r Hr]. rewrite append_cons in Hr. injection Hr as -> ->. eauto.
Qed.

(** [includes] decides occurrence as a substring. *)
Lemma includes_spec (s sub : string) :
  includes s sub = true <-> substringOf sub s.
Proof.
  unfold substringOf. induction s as [|c s IH].
  - simpl. rewrite orb_false_r, startsWith_spec. split.
    + intros [r Hr]. exists "", r. exact Hr.
    + intros [a [b H]]. symmetry in H. apply append_eq_nil in H as [-> H].
      exists b. symmetry. exact H.
  - simpl. rewrite orb_true_iff, startsWith_spec, IH. split.
    + intros [[r Hr]|[a [b H]]].
      * exists "", r. exact Hr.
      * exists (String c a), b. rewrite append_cons, H. reflexivity.
    + intros [[|x a] [b H]].
      * left. exists b. exact H.
      * right. rewrite append_cons in H. injection H as _ H. eauto.
Qed.

Lemma includes_empty (s : string) : includes s "" = true.
Proof. destruct s; reflexivity. Qed.

Lemma toLowerCase_empty (s : string) : toLowerCase s = "" <-> s = "".
Proof. destruct s; simpl; split; intros H; try reflexivity; discriminate. Qed.

(** [trim] leaves nothing exactly when the string is white space only. *)
Lemma trimEnd_empty (s : string) : trimEnd s = "" <-> allChars isWhiteSpace s.
Proof.
  unfold allChars. induction s as [|c s IH]; simpl.
  - split; [intros _ x []|reflexivity].
  - destruct (trimEnd s) as [|y t] eqn:E.
    + destruct (isWhiteSpace c) eqn:W.
      * split; [|reflexivity]. intros _ x [<-|Hx]; [exact W|].
        apply IH; [reflexivity|exact Hx].
      * split; [discriminate|]. intros H. rewrite (H c) in W; [discriminate|left; reflexivity].
    + split; [discriminate|]. intros H.
      assert (String y t = "") as A by (apply IH; intros x Hx; apply H; right; exact Hx).
      discriminate.
Qed.

Lemma trim_empty (s : string) : trim s = "" <-> allChars isWhiteSpace s.
Proof.
  unfold trim. rewrite trimEnd_empty. unfold allChars. induction s as [|c s IH]; simpl.
  - reflexivity.
  - destruct (isWhiteSpace c) eqn:W.
    + rewrite IH. split.
      * intros H x [<-|Hx]; [exact W|apply H; exact Hx].
      * intros H x Hx. apply H. right. exact Hx.
    + simpl. reflexivity.
Qed.

Lemma removeWhiteSpace_clean (s : string) :
  forall c, In c (list_ascii_of_string (removeWhiteSpace s)) -> isWhiteSpace c = false.
Proof.
  induction s as [|x s IH]; simpl; intros c Hc; [destruct Hc|].
  destruct (isWhiteSpace x) eqn:W; [apply IH; exact Hc|].
  simpl in Hc. destruct Hc as [<-|Hc]; [exact W|apply IH; exact Hc].
Qed.

(** *** Case *)

Ltac each_ascii c :=
  destruct c as [[|] [|] [|] [|] [|] [|] [|] [|]]; vm_compute; try reflexivity; try discriminate.

Lemma lowerChar_isLower (c : ascii) : isUpper c = true -> isLower (lowerChar c) = true.
Proof. each_ascii c. Qed.

Lemma phone_char_caseless (c : ascii) :
  isWhiteSpace c || isDigit c || Ascii.eqb c "+" = true -> caseless c = true.
Proof. each_ascii c. Qed.

Lemma chars_append (a b : string) :
  list_ascii_of_string (a +:+ b) = list_ascii_of_string a ++ list_ascii_of_string b.
Proof.
  induction a as [|x a IH]; [reflexivity|].
  rewrite append_cons. simpl. rewrite IH. reflexivity.
Qed.

Lemma substring_chars (sub s : string) (c : ascii) :
  substringOf sub s -> In c (list_ascii_of_string sub) -> In c (list_ascii_of_string s).
Proof.
  intros [a [b ->]] H. rewrite !chars_append, !in_app_iff. auto.
Qed.

Lemma toLowerCase_chars (s : string) (c : ascii) :
  In c (list_ascii_of_string s) -> In (lowerChar c) (list_ascii_of_string (toLowerCase s)).
Proof.
  induction s as [|x s IH]; simpl; [intros []|].
  intros [->|H]; [left; reflexivity|right; apply IH, H].
Qed.

Lemma toLowerCase_fixed (s : string) :
  allChars (fun c => negb (isUpper c)) s -> toLowerCase s = s.
Proof.
  induction s as [|x s IH]; intros H; [reflexivity|]. simpl.
  assert (negb (isUpper x) = true) as Hx by (apply H; left; reflexivity).
  apply negb_true_iff in Hx. unfold lowerChar. rewrite Hx. f_equal.
  apply IH. intros c Hc. apply H. right. exact Hc.
Qed.

Lemma caseless_not_upper (s : string) :
  allChars caseless s -> allChars (fun c => negb (isUpper c)) s.
Proof.
  intros H c Hc. apply H in Hc. unfold caseless in Hc.
  apply andb_true_iff in Hc as [Hc _]. exact Hc.
Qed.

(** In a text without letters, looking for [sub] with or without regard to
    case is the same. *)
Lemma includes_caseless (s sub : string) :
  allChars caseless s ->
  includes (toLowerCase s) (toLowerCase sub) = includes s sub.
Proof.
  intros Hs. rewrite (toLowerCase_fixed s (caseless_not_upper s Hs)).
  assert (forall t, substringOf t s -> allChars caseless t) as Hsub
    by (intros t Ht c Hc; apply Hs, (substring_chars t s c Ht Hc)).
  apply eq_true_iff_eq. rewrite !includes_spec. split; intros H.
  - assert (allChars (fun c => negb (isUpper c)) sub) as Hn.
    { intros c Hc. destruct (isUpper c) eqn:U; [exfalso|reflexivity].
      pose proof (Hsub _ H (lowerChar c) (toLowerCase_chars sub c Hc)) as L.
      unfold caseless in L. apply andb_true_iff in L as [_ L].
      rewrite (lowerChar_isLower c U) in L. discriminate. }
    rewrite (toLowerCase_fixed sub Hn) in H. exact H.
  - rewrite (toLowerCase_fixed sub (caseless_not_upper sub (Hsub sub H))). exact H.
Qed.

Lemma removeWhiteSpace_chars (s : string) (c : ascii) :
  In c (list_ascii_of_string s) ->
  isWhiteSpace c = true \/ In c (list_ascii_of_string (removeWhiteSpace s)).
Proof.
  induction s as [|x s IH]; simpl; [intros []|].
  intros [->|H].
  - destruct (isWhiteSpace c) eqn:W; [left; reflexivity|right; left; reflexivity].
  - destruct (IH H) as [W|Hin]; [left; exact W|right].
    destruct (isWhiteSpace x); [exact Hin|right; exact Hin].
Qed.

End JSFacts.

(** ** The matcher decides the language of a pattern *)

Module RegexFacts.
Import JS Regex JSFacts.

Lemma Matches_Eps (s : string) : Matches Eps s <-> s = "".
Proof. split; [intros H; inv H; reflexivity|intros ->; constructor]. Qed.

Lemma Matches_Void (s : string) : Matches Void s <-> False.
Proof. split; [intros H; inv H|intros []]. Qed.

Lemma Matches_Class (p : ascii -> bool) (s : string) :
  Matches (Class p) s <-> exists c, s = String c "" /\ p c = true.
Proof.
  split; [intros H; inv H; eauto|intros [c [-> H]]; constructor; exact H].
Qed.

Lemma Matches_Cat (a b : t) (s : string) :
  Matches (Cat a b) s <-> exists u v, s = u +:+ v /\ Matches a u /\ Matches b v.
Proof.
  split; [intros H; inv H; eauto|intros [u [v [-> [Ha Hb]]]]; constructor; assumption].
Qed.

Lemma Matches_Alt (a b : t) (s : string) :
  Matches (Alt a b) s <-> Matches a s \/ Matches b s.
Proof.
  split; [intros H; inv H; auto|intros [H|H]; [apply MAltL|apply MAltR]; exact H].
Qed.

Lemma nullable_spec (r : t) : nullable r = true <-> Matches r "".
Proof.
  induction r as [| |p|a IHa b IHb|a IHa b IHb]; simpl.
  - rewrite Matches_Void. split; [discriminate|intros []].
  - rewrite Matches_Eps. split; reflexivity.
  - rewrite Matches_Class. split; [discriminate|intros [c [H _]]; discriminate].
  - rewrite andb_true_iff, IHa, IHb, Matches_Cat. split.
    + intros [Ha Hb]. exists "", "". auto.
    + intros [u [v [E [Ha Hb]]]]. symmetry in E.
      apply append_eq_nil in E as [-> ->]. auto.
  - rewrite orb_true_iff, IHa, IHb, Matches_Alt. reflexivity.
Qed.

Lemma deriv_spec (c : ascii) (r : t) :
  forall s, Matches (deriv c r) s <-> Matches r (String c s).
Proof.
  induction r as [| |p|a IHa b IHb|a IHa b IHb]; intros s; simpl.
  - rewrite !Matches_Void. reflexivity.
  - rewrite Matches_Void, Matches_Eps. split; [intros []|discriminate].
  - rewrite Matches_Class. destruct (p c) eqn:P.
    + rewrite Matches_Eps. split.
      * intros ->. eauto.
      * intros [x [E _]]. injection E as _ ->. reflexivity.
    + rewrite Matches_Void. split; [intros []|].
      intros [x [E Px]]. injection E as -> _. congruence.
  - assert (Matches (Cat (deriv c a) b) s <->
            exists u v, String c s = String c u +:+ v /\ Matches a (String c u) /\ Matches b v)
      as Hhead.
    { rewrite Matches_Cat. split.
      - intros [u [v [-> [Ha Hb]]]]. exists u, v. rewrite append_cons.
        split; [reflexivity|]. split; [apply IHa; exact Ha|exact Hb].
      - intros [u [v [E [Ha Hb]]]]. rewrite append_cons in E. injection E as ->.
        exists u, v. split; [reflexivity|]. split; [apply IHa; exact Ha|exact Hb]. }
    rewrite (Matches_Cat a b). destruct (nullable a) eqn:N.
    + rewrite Matches_Alt, Hhead, IHb. split.
      * intros [[u [v [E H]]]|Hb]; [exists (String c u), v; auto|].
        exists "", (String c s). split; [reflexivity|].
        split; [apply nullable_spec; exact N|exact Hb].
      * intros [[|x u] [v [E [Ha Hb]]]].
        -- right. rewrite append_nil_l in E. subst v. exact Hb.
        -- left. pose proof E as E'. rewrite append_cons in E'. injection E' as -> _.
           exists u, v. auto.
    + rewrite Hhead. split.
      * intros [u [v [E H]]]. exists (String c u), v. auto.
      * intros [[|x u] [v [E [Ha Hb]]]].
        -- apply nullable_spec in Ha. congruence.
        -- pose proof E as E'. rewrite append_cons in E'. injection E' as -> _.
           exists u, v. auto.
  - rewrite !Matches_Alt, IHa, IHb. reflexivity.
Qed.

Theorem test_spec (r : t) (s : string) : test r s = true <-> Matches r s.
Proof.
  revert r. induction s as [|c s IH]; intros r; simpl.
  - apply nullable_spec.
  - rewrite IH. apply deriv_spec.
Qed.

(** *** The shapes of the pieces of [phoneRegex] *)

Lemma allChars_cons (p : ascii -> bool) (c : ascii) (s : string) :
  allChars p (String c s) <-> p c = true /\ allChars p s.
Proof.
  unfold allChars. simpl. split.
  - intros H. split; [apply H; left; reflexivity|intros x Hx; apply H; right; exact Hx].
  - intros [Hc H] x [<-|Hx]; [exact Hc|apply H; exact Hx].
Qed.

Lemma allChars_nil (p : ascii -> bool) : allChars p "".
Proof. intros c []. Qed.

Lemma Matches_Lit (l s : string) : Matches (Lit l) s <-> s = l.
Proof.
  revert s. induction l as [|c l IH]; intros s; simpl.
  - apply Matches_Eps.
  - unfold Chr. rewrite Matches_Cat. split.
    + intros [u [v [-> [Hu Hv]]]]. apply Matches_Class in Hu as [x [-> Hx]].
      apply Ascii.eqb_eq in Hx as <-. apply IH in Hv as ->. reflexivity.
    + intros ->. exists (String c ""), l. split; [reflexivity|].
      split; [apply Matches_Class; exists c; split; [reflexivity|apply Ascii.eqb_refl]|].
      apply IH. reflexivity.
Qed.

Lemma Matches_Class_Cat (p : ascii -> bool) (r : t) (s : string) :
  Matches (Cat (Class p) r) s <-> exists c s', s = String c s' /\ p c = true /\ Matches r s'.
Proof.
  rewrite Matches_Cat. split.
  - intros [u [v [-> [Hu Hv]]]]. apply Matches_Class in Hu as [c [-> Hc]].
    exists c, v. auto.
  - intros [c [s' [-> [Hc Hr]]]]. exists (String c ""), s'.
    split; [reflexivity|]. split; [apply Matches_Class; eauto|exact Hr].
Qed.

Lemma Matches_UpTo (p : ascii -> bool) (k : nat) :
  forall s, Matches (UpTo k (Class p)) s <-> String.length s <= k /\ allChars p s.
Proof.
  induction k as [|k IH]; intros s; simpl.
  - rewrite Matches_Eps. split.
    + intros ->. split; [simpl; lia|apply allChars_nil].
    + intros [H _]. destruct s; [reflexivity|simpl in H; lia].
  - unfold Opt. rewrite Matches_Alt, Matches_Eps, Matches_Class_Cat. split.
    + intros [[c [s' [-> [Hc Hs]]]]| ->].
      * apply IH in Hs as [Hl Ha]. split; [simpl; lia|apply allChars_cons; auto].
      * split; [simpl; lia|apply allChars_nil].
    + intros [Hl Ha]. destruct s as [|c s']; [right; reflexivity|left].
      apply allChars_cons in Ha as [Hc Ha]. exists c, s'.
      split; [reflexivity|]. split; [exact Hc|]. apply IH. simpl in Hl. split; [lia|exact Ha].
Qed.

Lemma Matches_Between (p : ascii -> bool) (k n : nat) :
  forall s, Matches (Cat (Times n (Class p)) (UpTo k (Class p))) s <->
            n <= String.length s <= n + k /\ allChars p s.
Proof.
  induction n as [|n IH]; intros s; simpl.
  - rewrite Matches_Cat. split.
    + intros [u [v [-> [Hu Hv]]]]. apply Matches_Eps in Hu as ->.
      rewrite append_nil_l. apply Matches_UpTo in Hv as [Hl Ha]. split; [lia|exact Ha].
    + intros [Hl Ha]. exists "", s. split; [reflexivity|].
      split; [constructor|apply Matches_UpTo; split; [lia|exact Ha]].
  - rewrite Matches_Cat. split.
    + intros [u [v [-> [Hu Hv]]]]. apply Matches_Class_Cat in Hu as [c [u' [-> [Hc Hu]]]].
      assert (Matches (Cat (Times n (Class p)) (UpTo k (Class p))) (u' +:+ v)) as H
        by (constructor; assumption).
      apply IH in H as [Hl Ha]. rewrite append_cons. simpl.
      split; [lia|apply allChars_cons; auto].
    + intros [Hl Ha]. destruct s as [|c s']; [simpl in Hl; lia|].
      apply allChars_cons in Ha as [Hc Ha]. simpl in Hl.
      assert (Matches (Cat (Times n (Class p)) (UpTo k (Class p))) s') as H
        by (apply IH; split; [lia|exact Ha]).
      apply Matches_Cat in H as [u [v [-> [Hu Hv]]]].
      exists (String c u), v. rewrite append_cons. split; [reflexivity|].
      split; [apply Matches_Class_Cat; eauto|exact Hv].
Qed.

End RegexFacts.

(** ** The phone pattern *)

Module PhoneFacts.
Import Regex JSFacts RegexFacts.

(** [phoneRegex] accepts exactly an optional "+237" or "237", a "6", and
    eight or nine digits. *)
Lemma phoneRegex_shape (s : string) :
  Regex.test phoneRegex s = true <-> phoneShape s.
Proof.
  rewrite test_spec. unfold phoneRegex, phoneShape, Between, Chr, Opt.
  rewrite Matches_Cat. split.
  - intros [u [v [-> [Hu Hv]]]].
    apply Matches_Class_Cat in Hv as [c [d [-> [Hc Hd]]]].
    apply Ascii.eqb_eq in Hc as <-.
    apply Matches_Between in Hd as [Hl Ha].
    exists u, d. split; [reflexivity|]. split.
    + apply Matches_Alt in Hu as [Hu|Hu].
      * apply Matches_Alt in Hu as [Hu|Hu]; apply Matches_Lit in Hu; auto.
      * apply Matches_Eps in Hu. auto.
    + split; [lia|exact Ha].
  - intros [u [d [-> [Hu [Hl Ha]]]]]. exists u, ("6" +:+ d).
    split; [reflexivity|]. split.
    + apply Matches_Alt. destruct Hu as [->|[->| ->]].
      * right. constructor.
      * left. apply Matches_Alt. left. apply Matches_Lit. reflexivity.
      * left. apply Matches_Alt. right. apply Matches_Lit. reflexivity.
    + apply Matches_Class_Cat. exists "6"%char, d.
      split; [reflexivity|]. split; [reflexivity|].
      apply Matches_Between. split; [lia|exact Ha].
Qed.

(** A phone that passes the check is made of digits, "+" and white space. *)
Lemma validPhone_caseless (telephone : string) :
  validPhone telephone = true -> JS.allChars JS.caseless telephone.
Proof.
  unfold validPhone. rewrite phoneRegex_shape.
  intros [prefix [digits [E [Hp [_ Hd]]]]] c Hc.
  apply phone_char_caseless.
  destruct (removeWhiteSpace_chars telephone c Hc) as [W|Hin]; [rewrite W; reflexivity|].
  rewrite E, !chars_append, !in_app_iff in Hin.
  destruct Hin as [Hin|[Hin|Hin]].
  - destruct Hp as [->|[->| ->]]; simpl in Hin;
      repeat (destruct Hin as [<-|Hin]; [vm_compute; reflexivity|]); destruct Hin.
  - simpl in Hin. destruct Hin as [<-|[]]. vm_compute. reflexivity.
  - rewrite (Hd c Hin). apply orb_true_iff. left. apply orb_true_r.
Qed.

End PhoneFacts.

(** ** State bookkeeping *)

Section StateFacts.

Lemma inscriptions_toast (t : Toast) (st : State) :
  inscriptions (toast t st) = inscriptions st.
Proof. reflexivity. Qed.

Lemma formData_toast (t : Toast) (st : State) :
  formData (toast t st) = formData st.
Proof. reflexivity. Qed.

Lemma rejected_unchanged (msg : Message) (st st' : State) :
  rejected msg st st' ->
  inscriptions st' = inscriptions st /\ formData st' = formData st /\
  loading st' = loading st /\ toasts st' = toasts st ++ [ToastError msg].
Proof. intros ->. repeat split. Qed.

(** The first half of [handleSubmit] stops at the first check of
    [spec_checks] that fails, and starts the delay when none does. *)
Lemma handleSubmit_start_firstFailure (st : State) :
  handleSubmit_start st =
  match firstFailure spec_checks st with
  | Some msg => (false, toast (ToastError msg) st)
  | None => (true, setLoading true st)
  end.
Proof.
  unfold handleSubmit_start, validateForm, validPhone, JS.truthy, spec_checks, firstFailure.
  destruct (String.eqb (JS.trim (Form.nom (formData st))) ""); [reflexivity|].
  destruct (String.eqb (Form.filiere (formData st)) ""); [reflexivity|].
  destruct (String.eqb (Form.niveau (formData st)) ""); [reflexivity|].
  destruct (Regex.test phoneRegex (JS.removeWhiteSpace (Form.telephone (formData st))));
    [|reflexivity].
  destruct (phoneTaken (inscriptions st) (Form.telephone (formData st))); [reflexivity|].
  cbn [negb]. rewrite Nat.ltb_antisym.
  destruct (MAX_INSCRIPTIONS <=? length (inscriptions st)); reflexivity.
Qed.

Lemma handleSubmit_firstFailure (env : Env) (st : State) :
  handleSubmit env st =
  match firstFailure spec_checks st with
  | Some msg => toast (ToastError msg) st
  | None => handleSubmit_resume env st (setLoading true st)
  end.
Proof.
  unfold handleSubmit. rewrite handleSubmit_start_firstFailure.
  destruct (firstFailure spec_checks st); reflexivity.
Qed.

Lemma firstFailure_validateForm (st : State) :
  fst (validateForm st) = true ->
  firstFailure spec_checks st =
  if length (inscriptions st) <? MAX_INSCRIPTIONS then None else Some MsgMaximum.
Proof.
  unfold validateForm, validPhone, JS.truthy, spec_checks, firstFailure.
  destruct (String.eqb (JS.trim (Form.nom (formData st))) ""); [discriminate|].
  destruct (String.eqb (Form.filiere (formData st)) ""); [discriminate|].
  destruct (String.eqb (Form.niveau (formData st)) ""); [discriminate|].
  destruct (Regex.test phoneRegex (JS.removeWhiteSpace (Form.telephone (formData st))));
    [|discriminate].
  destruct (phoneTaken (inscriptions st) (Form.telephone (formData st))); [discriminate|].
  reflexivity.
Qed.

Lemma validateForm_state (st : State) :
  fst (validateForm st) = true -> snd (validateForm st) = st.
Proof.
  unfold validateForm.
  repeat (match goal with |- context [if ?b then _ else _] => destruct b end;
          try discriminate).
  reflexivity.
Qed.

End StateFacts.

(** ** Submission and deletion preserve the invariants of the list *)

Section ListFacts.

Lemma phoneTaken_spec (l : list Inscription.t) (telephone : string) :
  phoneTaken l telephone = true <-> In telephone (map Inscription.telephone l).
Proof.
  unfold phoneTaken. rewrite existsb_exists, in_map_iff. split.
  - intros [x [Hx E]]. apply JSFacts.strictEq_true in E. eauto.
  - intros [x [E Hx]]. exists x. split; [exact Hx|]. apply JSFacts.strictEq_true. exact E.
Qed.

Lemma firstFailure_None (st : State) :
  firstFailure spec_checks st = None ->
  fst (validateForm st) = true /\
  phoneTaken (inscriptions st) (Form.telephone (formData st)) = false /\
  length (inscriptions st) < MAX_INSCRIPTIONS.
Proof.
  unfold validateForm, validPhone, JS.truthy, spec_checks, firstFailure.
  destruct (String.eqb (JS.trim (Form.nom (formData st))) ""); [discriminate|].
  destruct (String.eqb (Form.filiere (formData st)) ""); [discriminate|].
  destruct (String.eqb (Form.niveau (formData st)) ""); [discriminate|].
  destruct (Regex.test phoneRegex (JS.removeWhiteSpace (Form.telephone (formData st))));
    [|discriminate].
  destruct (phoneTaken (inscriptions st) (Form.telephone (formData st))); [discriminate|].
  cbn [negb fst]. destruct (length (inscriptions st) <? MAX_INSCRIPTIONS) eqn:L; [|discriminate].
  intros _. apply Nat.ltb_lt in L. auto.
Qed.

Lemma firstFailure_full (st : State) :
  MAX_INSCRIPTIONS <= length (inscriptions st) ->
  exists msg, firstFailure spec_checks st = Some msg.
Proof.
  intros H. destruct (firstFailure spec_checks st) as [msg|] eqn:E; [eauto|].
  apply firstFailure_None in E as [_ [_ L]]. lia.
Qed.

Lemma firstFailure_taken (st : State) :
  In (Form.telephone (formData st)) (map Inscription.telephone (inscriptions st)) ->
  exists msg, firstFailure spec_checks st = Some msg.
Proof.
  intros H. destruct (firstFailure spec_checks st) as [msg|] eqn:E; [eauto|].
  apply firstFailure_None in E as [_ [T _]].
  apply phoneTaken_spec in H. congruence.
Qed.

(** The list after [handleSubmit]: as before, or one new entry at the head. *)
Lemma handleSubmit_inscriptions (env : Env) (st : State) :
  inscriptions (handleSubmit env st) =
  match firstFailure spec_checks st with
  | Some _ => inscriptions st
  | None => newInscription env st :: inscriptions st
  end.
Proof.
  rewrite handleSubmit_firstFailure. destruct (firstFailure spec_checks st); reflexivity.
Qed.

(** The list after [handleDelete]: as before, or without the entries of
    that id. *)
Lemma handleDelete_inscriptions (id : string) (st : State) :
  inscriptions (handleDelete id st) = inscriptions st \/
  inscriptions (handleDelete id st) =
    List.filter (fun insc => negb (hasId id insc)) (inscriptions st).
Proof.
  unfold handleDelete.
  destruct (List.find _ (inscriptions st)) as [x|]; [|left; reflexivity].
  destruct (negb (JS.strictEq (Inscription.userId x) (currentUserId st)));
    [left; reflexivity|right; reflexivity].
Qed.

Lemma filter_length_le {A : Type} (p : A -> bool) (l : list A) :
  length (List.filter p l) <= length l.
Proof.
  induction l as [|x l IH]; simpl; [lia|]. destruct (p x); simpl; lia.
Qed.

Lemma NoDup_map_filter {A B : Type} (f : A -> B) (p : A -> bool) (l : list A) :
  List.NoDup (map f l) -> List.NoDup (map f (List.filter p l)).
Proof.
  induction l as [|x l IH]; simpl; intros H; [exact H|].
  apply List.NoDup_cons_iff in H as [Hx Hl]. destruct (p x); simpl; [|auto].
  apply List.NoDup_cons_iff. split; [|auto].
  intros Hin. apply Hx. apply in_map_iff in Hin as [y [E Hy]].
  apply filter_In in Hy as [Hy _]. apply in_map_iff. eauto.
Qed.

(** Events other than a submission or a deletion leave the list alone. *)
Lemma step_inscriptions (e : Event) (st : State) :
  match e with
  | Submit env => inscriptions (step e st) = inscriptions (handleSubmit env st)
  | Delete id => inscriptions (step e st) = inscriptions (handleDelete id st)
  | _ => inscriptions (step e st) = inscriptions st
  end.
Proof. destruct e; reflexivity. Qed.

Lemma step_length (e : Event) (st : State) :
  length (inscriptions st) <= MAX_INSCRIPTIONS ->
  length (inscriptions (step e st)) <= MAX_INSCRIPTIONS.
Proof.
  intros H. pose proof (step_inscriptions e st) as E.
  destruct e; try (rewrite E; exact H).
  - rewrite E, handleSubmit_inscriptions.
    destruct (firstFailure spec_checks st) eqn:F; [exact H|].
    apply firstFailure_None in F as [_ [_ L]]. simpl. lia.
  - rewrite E. destruct (handleDelete_inscriptions id st) as [-> | ->]; [exact H|].
    pose proof (filter_length_le (fun insc => negb (hasId id insc))
                  (inscriptions st)). lia.
Qed.

Lemma step_NoDup (e : Event) (st : State) :
  List.NoDup (map Inscription.telephone (inscriptions st)) ->
  List.NoDup (map Inscription.telephone (inscriptions (step e st))).
Proof.
  intros H. pose proof (step_inscriptions e st) as E.
  destruct e; try (rewrite E; exact H).
  - rewrite E, handleSubmit_inscriptions.
    destruct (firstFailure spec_checks st) eqn:F; [exact H|].
    apply firstFailure_None in F as [_ [T _]]. simpl. apply List.NoDup_cons_iff.
    split; [|exact H]. intros Hin. apply phoneTaken_spec in Hin. congruence.
  - rewrite E. destruct (handleDelete_inscriptions id st) as [-> | ->]; [exact H|].
    apply NoDup_map_filter. exact H.
Qed.

Lemma run_cons (e : Event) (es : list Event) (st : State) :
  run (e :: es) st = run es (step e st).
Proof. reflexivity. Qed.

(** A property of the list kept by every event holds along every run. *)
Lemma run_invariant (P : list Inscription.t -> Prop) :
  (forall e st, P (inscriptions st) -> P (inscriptions (step e st))) ->
  forall es st, P (inscriptions st) -> P (inscriptions (run es st)).
Proof.
  intros Hstep es. induction es as [|e es IH]; intros st H; [exact H|].
  rewrite run_cons. apply IH, Hstep, H.
Qed.

End ListFacts.

(** ** The invariants hold with events during the delay *)

Module AsyncFacts.
Import Async.

Lemma ui_step (e : Event) (st : State) :
  (forall env, e <> Submit env) ->
  loading (step e st) = loading st /\
  (inscriptions (step e st) = inscriptions st \/
   exists f, inscriptions (step e st) = List.filter f (inscriptions st)).
Proof.
  intros Hns. destruct e; try (split; [reflexivity|left; reflexivity]).
  - destruct (Hns env). reflexivity.
  - simpl. unfold handleDelete.
    destruct (List.find (hasId id) (inscriptions st)) as [x|];
      [|split; [reflexivity|left; reflexivity]].
    destruct (negb (JS.strictEq (Inscription.userId x) (currentUserId st)));
      [split; [reflexivity|left; reflexivity]|].
    split; [reflexivity|right; eexists; reflexivity].
Qed.

Section Invariant.

Variable P : list Inscription.t -> Prop.
Variable Q : State -> list Inscription.t -> Prop.

Hypothesis P_filter : forall f l, P l -> P (List.filter f l).
Hypothesis Q_filter : forall r f l, Q r l -> Q r (List.filter f l).
Hypothesis Q_start :
  forall st, firstFailure spec_checks st = None -> Q st (inscriptions st).
Hypothesis P_resume : forall env r l, P l -> Q r l -> P (newInscription env r :: l).

Lemma act_Inv (a : Action) (p : Page) : Inv P Q p -> Inv P Q (act a p).
Proof.
  intros [HP HQ]. destruct a as [|env|e]; simpl.
  - destruct (submitDisabled (state p)) eqn:G; [split; assumption|].
    apply orb_false_iff in G as [_ Hl].
    assert (waiting p = None) as W.
    { destruct (waiting p) as [r|] eqn:W; [|reflexivity].
      destruct (HQ r eq_refl) as [Hl' _]. congruence. }
    rewrite handleSubmit_start_firstFailure.
    destruct (firstFailure spec_checks (state p)) eqn:F; split; simpl.
    + exact HP.
    + rewrite W. discriminate.
    + exact HP.
    + intros r [= <-]. split; [reflexivity|]. apply Q_start, F.
  - destruct (waiting p) as [r|] eqn:W; [|split; [exact HP|rewrite W; exact HQ]].
    destruct (HQ r eq_refl) as [_ Hq]. split; simpl.
    + apply P_resume; assumption.
    + discriminate.
  - assert ((exists env, e = Submit env) \/ forall env, e <> Submit env) as [[env ->]|Hns]
      by (destruct e; eauto; right; discriminate).
    + split; assumption.
    + assert (act (Ui e) p = mkPage (step e (state p)) (waiting p)) as E
        by (destruct e; try reflexivity; destruct (Hns env); reflexivity).
      simpl in E. rewrite E.
      destruct (ui_step e (state p) Hns) as [Hl [Hi|[f Hi]]]; split; simpl; rewrite ?Hi, ?Hl;
        try exact HP; try exact HQ; try (apply P_filter; exact HP).
      intros r W. destruct (HQ r W) as [Hl' Hq]. split; [exact Hl'|apply Q_filter, Hq].
Qed.

Lemma run_Inv (acts : list Action) : forall p, Inv P Q p -> Inv P Q (run acts p).
Proof.
  induction acts as [|a acts IH]; intros p H; [exact H|].
  apply (IH (act a p)), act_Inv, H.
Qed.

End Invariant.

(** A submission, some deletions and other events during its delay, and the
    end of the delay: the list never exceeds its capacity. *)
Lemma run_capacity (acts : list Action) (p : Page) :
  waiting p = None ->
  length (inscriptions (state p)) <= MAX_INSCRIPTIONS ->
  length (inscriptions (state (run acts p))) <= MAX_INSCRIPTIONS.
Proof.
  intros W H.
  apply (run_Inv (fun l => length l <= MAX_INSCRIPTIONS)
                 (fun _ l => length l < MAX_INSCRIPTIONS)).
  - intros f l Hl. pose proof (filter_length_le f l). lia.
  - intros _ f l Hl. pose proof (filter_length_le f l). lia.
  - intros st F. apply firstFailure_None in F as [_ [_ L]]. exact L.
  - intros env r l _ Hl. simpl. lia.
  - split; [exact H|]. rewrite W. discriminate.
Qed.

(** Likewise the phones of the list stay pairwise distinct. *)
Lemma run_phones_distinct (acts : list Action) (p : Page) :
  waiting p = None ->
  List.NoDup (map Inscription.telephone (inscriptions (state p))) ->
  List.NoDup (map Inscription.telephone (inscriptions (state (run acts p)))).
Proof.
  intros W H.
  apply (run_Inv (fun l => List.NoDup (map Inscription.telephone l))
                 (fun r l => ~ In (Form.telephone (formData r)) (map Inscription.telephone l))).
  - intros f l. apply NoDup_map_filter.
  - intros r f l Hn Hin. apply Hn. apply in_map_iff in Hin as [x [E Hx]].
    apply filter_In in Hx as [Hx _]. apply in_map_iff. eauto.
  - intros st F Hin. apply firstFailure_None in F as [_ [T _]].
    apply phoneTaken_spec in Hin. congruence.
  - intros env r l Hl Hn. simpl. apply List.NoDup_cons_iff. split; assumption.
  - split; [exact H|]. rewrite W. discriminate.
Qed.

(** A click and the end of its delay with nothing in between is
    [handleSubmit]. *)
Lemma click_then_timer (env : Env) (st : State) :
  submitDisabled st = false ->
  state (act (Timer env) (act Click (mkPage st None))) = handleSubmit env st.
Proof.
  intros G. unfold handleSubmit. simpl. rewrite G.
  destruct (handleSubmit_start st) as [[|] st2]; reflexivity.
Qed.

End AsyncFacts.

(** * The rules of the page *)

(** C1. When the list holds at least 50 ([MAX_INSCRIPTIONS]) registrations,
    [handleSubmit] rejects the submission with an error message and leaves
    the list unchanged; hence every list reached from one of at most 50
    entries by any sequence of submissions, deletions and other events has
    at most 50 entries. *)
Theorem capacity_is_kept (env : Env) (st : State) (es : list Event) :
  (MAX_INSCRIPTIONS <= length (inscriptions st) ->
   (exists msg, rejected msg st (handleSubmit env st)) /\
   inscriptions (handleSubmit env st) = inscriptions st) /\
  (length (inscriptions st) <= MAX_INSCRIPTIONS ->
   length (inscriptions (run es st)) <= MAX_INSCRIPTIONS).
Proof.
  split.
  - intros H. destruct (firstFailure_full st H) as [msg F].
    split.
    + exists msg. unfold rejected. rewrite handleSubmit_firstFailure, F. reflexivity.
    + rewrite handleSubmit_inscriptions, F. reflexivity.
  - apply (run_invariant (fun l => length l <= MAX_INSCRIPTIONS)).
    intros e s. apply step_length.
Qed.

Lemma capacity_is_kept_witness :
  MAX_INSCRIPTIONS <= length (inscriptions Sample.full) /\
  length (inscriptions Sample.full) <= MAX_INSCRIPTIONS /\
  rejected MsgMaximum Sample.full (handleSubmit Sample.env1 Sample.full) /\
  length (inscriptions (run [Submit Sample.env1; Delete "1793613600007-0.5"; Submit Sample.env2]
                          Sample.full)) <= MAX_INSCRIPTIONS.
Proof.
  destruct (capacity_is_kept Sample.env1 Sample.full
              [Submit Sample.env1; Delete "1793613600007-0.5"; Submit Sample.env2])
    as [_ Hrun].
  split; [vm_compute; lia|]. split; [vm_compute; lia|].
  split; [vm_compute; reflexivity|]. apply Hrun. vm_compute. lia.
Defined.

(** C2. When the phone typed in the form is the phone of a registration of
    the list, [handleSubmit] rejects the submission and leaves the list
    unchanged; hence a list whose phones are pairwise distinct stays so
    after a submission, and after any sequence of events. *)
Theorem duplicate_phone_is_rejected (env : Env) (st : State) (es : list Event) :
  (In (Form.telephone (formData st)) (map Inscription.telephone (inscriptions st)) ->
   (exists msg, rejected msg st (handleSubmit env st)) /\
   inscriptions (handleSubmit env st) = inscriptions st) /\
  (List.NoDup (map Inscription.telephone (inscriptions st)) ->
   List.NoDup (map Inscription.telephone (inscriptions (handleSubmit env st))) /\
   List.NoDup (map Inscription.telephone (inscriptions (run es st)))).
Proof.
  split.
  - intros H. destruct (firstFailure_taken st H) as [msg F].
    split.
    + exists msg. unfold rejected. rewrite handleSubmit_firstFailure, F. reflexivity.
    + rewrite handleSubmit_inscriptions, F. reflexivity.
  - intros H. split.
    + apply (step_NoDup (Submit env) st H).
    + revert H. apply (run_invariant (fun l => List.NoDup (map Inscription.telephone l))).
      intros e s. apply step_NoDup.
Qed.

Lemma duplicate_phone_is_rejected_witness :
  In (Form.telephone (formData Sample.retyped))
     (map Inscription.telephone (inscriptions Sample.retyped)) /\
  List.NoDup (map Inscription.telephone (inscriptions Sample.retyped)) /\
  inscriptions (handleSubmit Sample.env1 Sample.retyped) = inscriptions Sample.retyped /\
  List.NoDup (map Inscription.telephone
                (inscriptions (run [Submit Sample.env1] Sample.retyped))).
Proof.
  assert (In (Form.telephone (formData Sample.retyped))
             (map Inscription.telephone (inscriptions Sample.retyped))) as Hin
    by (vm_compute; right; left; reflexivity).
  assert (List.NoDup (map Inscription.telephone (inscriptions Sample.retyped))) as Hnd
    by (vm_compute; repeat constructor; simpl; intuition discriminate).
  destruct (duplicate_phone_is_rejected Sample.env1 Sample.retyped [Submit Sample.env1])
    as [Hrej Hkeep].
  split; [exact Hin|]. split; [exact Hnd|].
  split; [apply (Hrej Hin)|apply (Hkeep Hnd)].
Defined.

(** C6. When the list holds fewer than 50 registrations and the form passes
    [validateForm], [handleSubmit] puts exactly one new registration at the
    head of the list, every former entry keeping its content one position
    further, and sets the four form fields to the empty string. *)
Theorem accepted_submission (env : Env) (st : State)
  (Hroom : length (inscriptions st) < MAX_INSCRIPTIONS)
  (Hvalid : fst (validateForm st) = true) :
  inscriptions (handleSubmit env st) = newInscription env st :: inscriptions st /\
  length (inscriptions (handleSubmit env st)) = S (length (inscriptions st)) /\
  (forall (i : nat), inscriptions (handleSubmit env st) !! S i = inscriptions st !! i) /\
  formData (handleSubmit env st) = Form.mk "" "" "" "".
Proof.
  pose proof (firstFailure_validateForm st Hvalid) as F.
  apply Nat.ltb_lt in Hroom. rewrite Hroom in F.
  pose proof (handleSubmit_inscriptions env st) as E. rewrite F in E.
  split; [exact E|]. split; [rewrite E; reflexivity|].
  split; [intros i; rewrite E; reflexivity|].
  rewrite handleSubmit_firstFailure, F. reflexivity.
Qed.

Lemma accepted_submission_witness :
  length (inscriptions Sample.three) < MAX_INSCRIPTIONS /\
  fst (validateForm Sample.three) = true /\
  inscriptions (handleSubmit Sample.env1 Sample.three) =
    newInscription Sample.env1 Sample.three :: inscriptions Sample.three.
Proof.
  assert (length (inscriptions Sample.three) < MAX_INSCRIPTIONS) as Hroom
    by (vm_compute; lia).
  assert (fst (validateForm Sample.three) = true) as Hvalid by (vm_compute; reflexivity).
  split; [exact Hroom|]. split; [exact Hvalid|].
  apply (accepted_submission Sample.env1 Sample.three Hroom Hvalid).
Defined.

(** C7. [handleSubmit] runs its checks in the order: name not empty once
    trimmed, track selected, level selected, phone format on the input
    without white space, phone not yet in the list, room left in the list.
    The first check that fails rejects the submission with its message, and
    a rejection changes neither the list nor the form; when no check fails
    the registration is added. *)
Theorem checks_in_order (env : Env) (st : State) :
  match firstFailure spec_checks st with
  | Some msg =>
      rejected msg st (handleSubmit env st) /\
      inscriptions (handleSubmit env st) = inscriptions st /\
      formData (handleSubmit env st) = formData st
  | None =>
      inscriptions (handleSubmit env st) = newInscription env st :: inscriptions st /\
      toasts (handleSubmit env st) = toasts st ++ [ToastSuccess MsgInscrit]
  end.
Proof.
  rewrite handleSubmit_firstFailure. unfold rejected.
  destruct (firstFailure spec_checks st); repeat split.
Qed.

(** *** Deletion *)

Section DeleteFacts.

Variable id : string.

Lemma hasId_true (insc : Inscription.t) : hasId id insc = true <-> Inscription.id insc = id.
Proof. apply JSFacts.strictEq_true. Qed.

Lemma hasId_false (insc : Inscription.t) :
  hasId id insc = false <-> Inscription.id insc <> id.
Proof. apply JSFacts.strictEq_false. Qed.

Lemma find_absent (l : list Inscription.t) :
  (forall insc, In insc l -> Inscription.id insc <> id) -> List.find (hasId id) l = None.
Proof.
  induction l as [|x l IH]; intros H; [reflexivity|]. simpl.
  assert (hasId id x = false) as -> by (apply hasId_false, H; left; reflexivity).
  apply IH. intros y Hy. apply H. right. exact Hy.
Qed.

Lemma find_first (before after : list Inscription.t) (insc : Inscription.t) :
  (forall x, In x before -> Inscription.id x <> id) ->
  Inscription.id insc = id ->
  List.find (hasId id) (before ++ insc :: after) = Some insc.
Proof.
  intros Hb Hi. induction before as [|x before IH]; simpl.
  - apply hasId_true in Hi. rewrite Hi. reflexivity.
  - assert (hasId id x = false) as -> by (apply hasId_false, Hb; left; reflexivity).
    apply IH. intros y Hy. apply Hb. right. exact Hy.
Qed.

Lemma filter_keeps (l : list Inscription.t) :
  (forall x, In x l -> Inscription.id x <> id) ->
  List.filter (fun insc => negb (hasId id insc)) l = l.
Proof.
  induction l as [|x l IH]; intros H; [reflexivity|]. simpl.
  assert (hasId id x = false) as -> by (apply hasId_false, H; left; reflexivity).
  simpl. f_equal. apply IH. intros y Hy. apply H. right. exact Hy.
Qed.

Lemma filter_first (before after : list Inscription.t) (insc : Inscription.t) :
  (forall x, In x before -> Inscription.id x <> id) ->
  Inscription.id insc = id ->
  List.filter (fun x => negb (hasId id x)) (before ++ insc :: after) =
  before ++ List.filter (fun x => negb (hasId id x)) after.
Proof.
  intros Hb Hi. rewrite List.filter_app, (filter_keeps before Hb). simpl.
  apply hasId_true in Hi. rewrite Hi. reflexivity.
Qed.

End DeleteFacts.

(** C3. [handleDelete] on an id carried by no registration rejects with
    "not found" and changes nothing.  Otherwise let [insc] be the
    registration of that id (the first one, should several carry it): when
    its owner is not the current browser the deletion is rejected with
    "not yours" and nothing changes; when it is, the entries of that id are
    removed and every other entry stays, in the same order; when no other
    entry carries the id, exactly [insc] is removed. *)
Theorem deletion_by_owner_only (id : string) (st : State) :
  ((forall insc, In insc (inscriptions st) -> Inscription.id insc <> id) ->
   rejected MsgNonTrouvee st (handleDelete id st)) /\
  (forall (before after : list Inscription.t) (insc : Inscription.t),
     inscriptions st = before ++ insc :: after ->
     (forall x, In x before -> Inscription.id x <> id) ->
     Inscription.id insc = id ->
     (Inscription.userId insc <> currentUserId st ->
      rejected MsgPasProprietaire st (handleDelete id st)) /\
     (Inscription.userId insc = currentUserId st ->
      toasts (handleDelete id st) = toasts st ++ [ToastSuccess MsgSupprimee] /\
      formData (handleDelete id st) = formData st /\
      inscriptions (handleDelete id st) =
        before ++ List.filter (fun x => negb (hasId id x)) after /\
      (forall x, In x (inscriptions (handleDelete id st)) <->
                 In x (inscriptions st) /\ Inscription.id x <> id) /\
      ((forall x, In x after -> Inscription.id x <> id) ->
       inscriptions (handleDelete id st) = before ++ after))).
Proof.
  split.
  - intros H. unfold rejected, handleDelete. rewrite (find_absent id _ H). reflexivity.
  - intros before after insc E Hb Hi.
    pose proof (find_first id before after insc Hb Hi) as F. rewrite <- E in F.
    split; intros Ho.
    + apply JSFacts.strictEq_false in Ho.
      unfold rejected, handleDelete. rewrite F, Ho. reflexivity.
    + apply JSFacts.strictEq_true in Ho.
      assert (inscriptions (handleDelete id st) =
              List.filter (fun x => negb (hasId id x)) (inscriptions st))
        as D by (unfold handleDelete; rewrite F, Ho; reflexivity).
      split; [unfold handleDelete; rewrite F, Ho; reflexivity|].
      split; [unfold handleDelete; rewrite F, Ho; reflexivity|].
      split; [rewrite D, E; apply (filter_first id before after insc Hb Hi)|].
      split.
      * intros x. rewrite D, filter_In, negb_true_iff, (hasId_false id). reflexivity.
      * intros Ha. rewrite D, E, (filter_first id before after insc Hb Hi).
        f_equal. apply (filter_keeps id after Ha).
Qed.

Lemma deletion_by_owner_only_witness :
  rejected MsgNonTrouvee Sample.mixed (handleDelete "0-0.0" Sample.mixed) /\
  rejected MsgPasProprietaire Sample.mixed
    (handleDelete (Inscription.id Sample.foreign) Sample.mixed) /\
  inscriptions (handleDelete (Inscription.id (Sample.entry 1)) Sample.mixed) =
    [Sample.entry 0; Sample.foreign].
Proof.
  split; [|split].
  - apply (proj1 (deletion_by_owner_only "0-0.0" Sample.mixed)).
    intros insc Hin. vm_compute in Hin.
    destruct Hin as [<-|[<-|[<-|[]]]]; vm_compute; discriminate.
  - apply (proj2 (deletion_by_owner_only (Inscription.id Sample.foreign) Sample.mixed)
             [Sample.entry 0] [Sample.entry 1] Sample.foreign).
    + reflexivity.
    + intros x [<-|[]]. vm_compute. discriminate.
    + reflexivity.
    + vm_compute. discriminate.
  - apply (proj2 (deletion_by_owner_only (Inscription.id (Sample.entry 1)) Sample.mixed)
             [Sample.entry 0; Sample.foreign] [] (Sample.entry 1)).
    + reflexivity.
    + intros x [<-|[<-|[]]]; vm_compute; discriminate.
    + reflexivity.
    + reflexivity.
    + intros x [].
Defined.

(** C4. The phone check of [validateForm] (the pattern
    [^(\+237|237)?[6][0-9]{8,9}$] on the input without white space) accepts
    "+237677123456" and "677123456" and rejects "123456789". *)
Theorem phone_examples :
  validPhone "+237677123456" = true /\
  validPhone "677123456" = true /\
  validPhone "123456789" = false.
Proof. repeat split; vm_compute; reflexivity. Qed.

(** *** The derived view *)

Section ViewFacts.

Lemma matchNom_spec (text : string) (insc : Inscription.t) :
  matchNom text insc = true <->
  text = "" \/
  substringOf (JS.toLowerCase text) (JS.toLowerCase (Inscription.nom insc)) \/
  substringOf text (Inscription.telephone insc).
Proof.
  unfold matchNom.
  rewrite !orb_true_iff, JSFacts.strictEq_true, !JSFacts.includes_spec. tauto.
Qed.

Lemma matchFiliere_spec (v : string) (insc : Inscription.t) :
  matchFiliere v insc = true <-> v = "" \/ Inscription.filiere insc = v.
Proof. unfold matchFiliere. rewrite orb_true_iff, !JSFacts.strictEq_true. reflexivity. Qed.

Lemma matchNiveau_spec (v : string) (insc : Inscription.t) :
  matchNiveau v insc = true <-> v = "" \/ Inscription.niveau insc = v.
Proof. unfold matchNiveau. rewrite orb_true_iff, !JSFacts.strictEq_true. reflexivity. Qed.

Lemma keep_selected (st : State) (insc : Inscription.t) :
  matchNom (searchNom st) insc && matchFiliere (filterFiliere st) insc &&
  matchNiveau (filterNiveau st) insc = true <-> selected st insc.
Proof.
  unfold selected.
  rewrite !andb_true_iff, matchNom_spec, matchFiliere_spec, matchNiveau_spec. tauto.
Qed.

Lemma filter_all {A : Type} (p : A -> bool) (l : list A) :
  (forall x, In x l -> p x = true) -> List.filter p l = l.
Proof.
  induction l as [|x l IH]; intros H; [reflexivity|]. simpl.
  rewrite (H x) by (left; reflexivity). f_equal. apply IH.
  intros y Hy. apply H. right. exact Hy.
Qed.

Lemma filter_subsequence {A : Type} (p : A -> bool) (l : list A) :
  sublist (List.filter p l) l.
Proof.
  induction l as [|x l IH]; simpl; [constructor|].
  destruct (p x); [apply sublist_skip|apply sublist_cons]; exact IH.
Qed.

End ViewFacts.

(** C5, as the code has it.  The view is the list filtered by the
    conjunction of three conditions: the search text is empty, or occurs in
    the name when both are put in lower case, or occurs in the phone as it
    is written; the track selector is empty or equals the track; the level
    selector is empty or equals the level.  With the track selector on "iw"
    every entry shown has track "iw", and with the other two filters empty
    the entries shown are exactly those of track "iw".  On a list whose
    phones all pass the phone check of the form, the view is the one of the
    specification: there, matching the phone with or without regard to case
    is the same. *)
Theorem view_is_filtered_list (st : State) :
  (exists keep : Inscription.t -> bool,
     (forall insc, keep insc = true <-> selected st insc) /\
     filteredInscriptions st = List.filter keep (inscriptions st)) /\
  (forall insc, In insc (filteredInscriptions st) <->
                In insc (inscriptions st) /\ selected st insc) /\
  (filterFiliere st = "iw" ->
   (forall insc, In insc (filteredInscriptions st) -> Inscription.filiere insc = "iw") /\
   (searchNom st = "" -> filterNiveau st = "" ->
    filteredInscriptions st =
      List.filter (fun insc => String.eqb (Inscription.filiere insc) "iw") (inscriptions st))) /\
  ((forall insc, In insc (inscriptions st) -> validPhone (Inscription.telephone insc) = true) ->
   filteredInscriptions st = spec_view st).
Proof.
  split; [|split; [|split]]; cycle 3.
  - intros Hv. unfold filteredInscriptions, spec_view. apply List.filter_ext_in.
    intros insc Hin. unfold matchNom, spec_matchText, matchFiliere, matchNiveau.
    rewrite (JSFacts.includes_caseless (Inscription.telephone insc) (searchNom st)
               (PhoneFacts.validPhone_caseless _ (Hv insc Hin))).
    reflexivity.
  - eexists. split; [|reflexivity]. intros insc. apply keep_selected.
  - intros insc. unfold filteredInscriptions. rewrite filter_In, keep_selected. reflexivity.
  - intros Hf. split.
    + intros insc Hin. unfold filteredInscriptions in Hin.
      apply filter_In in Hin as [_ Hk]. apply keep_selected in Hk as [_ [[E|E] _]].
      * rewrite Hf in E. discriminate.
      * rewrite E. exact Hf.
    + intros Hs Hn. unfold filteredInscriptions, matchNom, matchFiliere, matchNiveau.
      rewrite Hf, Hs, Hn. apply List.filter_ext. intros insc.
      unfold JS.strictEq. simpl. apply andb_true_r.
Qed.

Lemma view_is_filtered_list_witness :
  filterFiliere Sample.track_iw = "iw" /\
  searchNom Sample.track_iw = "" /\
  filterNiveau Sample.track_iw = "" /\
  (forall insc, In insc (inscriptions Sample.track_iw) ->
                validPhone (Inscription.telephone insc) = true) /\
  filteredInscriptions Sample.track_iw = [Sample.entry 0; Sample.entry 1] /\
  filteredInscriptions Sample.track_iw = spec_view Sample.track_iw.
Proof.
  assert (forall insc, In insc (inscriptions Sample.track_iw) ->
                       validPhone (Inscription.telephone insc) = true) as Hvalid
    by (intros insc [<-|[<-|[<-|[]]]]; vm_compute; reflexivity).
  destruct (view_is_filtered_list Sample.track_iw) as [_ [_ [H Hspec]]].
  destruct (H eq_refl) as [_ Hview].
  split; [reflexivity|]. split; [reflexivity|]. split; [reflexivity|].
  split; [exact Hvalid|]. split.
  - rewrite (Hview eq_refl eq_refl). vm_compute. reflexivity.
  - apply (Hspec Hvalid).
Defined.

(** C5, as the specification words it, fails: with the search text "abc"
    and a stored phone "677-ABC-456" the specified view shows the entry (the
    phone matches when case is ignored) and the code shows nothing. *)
Lemma view_phone_case_counterexample :
  spec_view Sample.search_abc = [Sample.lettered] /\
  filteredInscriptions Sample.search_abc = [] /\
  filteredInscriptions Sample.search_abc <> spec_view Sample.search_abc.
Proof.
  split; [vm_compute; reflexivity|]. split; [vm_compute; reflexivity|].
  vm_compute. discriminate.
Qed.

(** C9. With the search text and both selectors empty the view is the whole
    list, and for every filter state the view is a subsequence of the list:
    the entries shown keep their relative order. *)
Theorem view_is_subsequence (st : State) :
  (searchNom st = "" -> filterFiliere st = "" -> filterNiveau st = "" ->
   filteredInscriptions st = inscriptions st) /\
  sublist (filteredInscriptions st) (inscriptions st).
Proof.
  split.
  - intros Hs Hf Hn. unfold filteredInscriptions, matchNom, matchFiliere, matchNiveau.
    rewrite Hs, Hf, Hn. apply filter_all. reflexivity.
  - apply filter_subsequence.
Qed.

Lemma view_is_subsequence_witness :
  searchNom Sample.mixed = "" /\ filterFiliere Sample.mixed = "" /\
  filterNiveau Sample.mixed = "" /\
  filteredInscriptions Sample.mixed = [Sample.entry 0; Sample.foreign; Sample.entry 1].
Proof.
  split; [reflexivity|]. split; [reflexivity|]. split; [reflexivity|].
  apply (proj1 (view_is_subsequence Sample.mixed) eq_refl eq_refl eq_refl).
Defined.

(** *** Reloading the list *)

(** C8. When [localStorage] has no "inscriptions" entry, or has one that
    [JSON.parse] refuses, the mount effect leaves the list as it is: from the
    initial state the list stays empty.  An absent entry changes nothing at
    all; a refused one (the empty text apart, which is not parsed) is
    reported once on the console and nothing else changes. *)
Theorem load_failure_keeps_list
  (JSON_parse : string -> option (list Inscription.t))
  (storage : gmap string string) (st : State) :
  (storage !! "inscriptions" = None \/
   exists stored, storage !! "inscriptions" = Some stored /\ JSON_parse stored = None) ->
  inscriptions (loadInscriptions JSON_parse storage initialState) = [] /\
  inscriptions (loadInscriptions JSON_parse storage st) = inscriptions st /\
  toasts (loadInscriptions JSON_parse storage st) = toasts st /\
  (storage !! "inscriptions" = None -> loadInscriptions JSON_parse storage st = st) /\
  (forall stored, storage !! "inscriptions" = Some stored -> stored <> "" ->
     loadInscriptions JSON_parse storage st = console_error st).
Proof.
  intros H.
  assert (forall s, inscriptions (loadInscriptions JSON_parse storage s) = inscriptions s /\
                    toasts (loadInscriptions JSON_parse storage s) = toasts s) as Hkeep.
  { intros s. unfold loadInscriptions.
    destruct H as [->|[stored [-> ->]]]; [split; reflexivity|].
    destruct (JS.truthy stored); split; reflexivity. }
  split; [apply (Hkeep initialState)|].
  split; [apply (Hkeep st)|]. split; [apply (Hkeep st)|].
  split.
  - intros E. unfold loadInscriptions. rewrite E. reflexivity.
  - intros stored E Hne. unfold loadInscriptions. rewrite E.
    destruct H as [H|[stored' [E' P]]]; [congruence|].
    assert (stored' = stored) as -> by congruence.
    rewrite P. unfold JS.truthy.
    apply String.eqb_neq in Hne. rewrite Hne. reflexivity.
Qed.

Lemma load_failure_keeps_list_witness :
  Sample.storage_empty !! "inscriptions" = None /\
  (Sample.storage_broken !! "inscriptions" = Some "[{" /\ Sample.parse "[{" = None) /\
  inscriptions (loadInscriptions Sample.parse Sample.storage_empty initialState) = [] /\
  inscriptions (loadInscriptions Sample.parse Sample.storage_broken initialState) = [].
Proof.
  assert (Sample.storage_empty !! "inscriptions" = None) as Habsent
    by (vm_compute; reflexivity).
  assert (Sample.storage_broken !! "inscriptions" = Some "[{" /\ Sample.parse "[{" = None)
    as Hbroken by (split; vm_compute; reflexivity).
  split; [exact Habsent|]. split; [exact Hbroken|]. split.
  - apply (load_failure_keeps_list Sample.parse Sample.storage_empty initialState).
    left. exact Habsent.
  - apply (load_failure_keeps_list Sample.parse Sample.storage_broken initialState).
    right. exists "[{". exact Hbroken.
Defined.

(** *** The phone as it is typed *)

(** C10. The phone kept in a new registration is the text of the form field
    as typed, and the duplicate check compares that same text with the
    phones of the list: a rejection for a duplicate means that the typed
    text is the phone of an entry.  The text without white space is used by
    the format check only; two forms whose phones are different texts of the
    same number ("677123456" and "677 123 456") are both accepted, one after
    the other. *)
Theorem phone_is_kept_as_typed (env : Env) (st : State) :
  (length (inscriptions st) < MAX_INSCRIPTIONS -> fst (validateForm st) = true ->
   exists insc,
     inscriptions (handleSubmit env st) = insc :: inscriptions st /\
     Inscription.telephone insc = Form.telephone (formData st)) /\
  (rejected MsgDoublon st (handleSubmit env st) ->
   exists insc, In insc (inscriptions st) /\
                Inscription.telephone insc = Form.telephone (formData st)) /\
  (exists (first second : Form.t) (env1 env2 : Env),
     JS.removeWhiteSpace (Form.telephone first) = JS.removeWhiteSpace (Form.telephone second) /\
     Form.telephone first <> Form.telephone second /\
     map Inscription.telephone
       (inscriptions
          (handleSubmit env2 (setFormData (fun _ => second)
             (handleSubmit env1 (setFormData (fun _ => first) initialState))))) =
     [Form.telephone second; Form.telephone first]).
Proof.
  split; [|split].
  - intros Hroom Hvalid. exists (newInscription env st).
    pose proof (firstFailure_validateForm st Hvalid) as F.
    apply Nat.ltb_lt in Hroom. rewrite Hroom in F.
    rewrite handleSubmit_inscriptions, F. split; reflexivity.
  - unfold rejected. rewrite handleSubmit_firstFailure. intros R.
    assert (phoneTaken (inscriptions st) (Form.telephone (formData st)) = true) as T.
    { destruct (phoneTaken (inscriptions st) (Form.telephone (formData st))) eqn:T;
        [reflexivity|exfalso].
      apply (f_equal toasts) in R. revert R.
      unfold spec_checks, firstFailure. rewrite T. cbn [negb].
      repeat (match goal with |- context [if ?b then _ else _] => destruct b end);
        cbn [toasts toast handleSubmit_resume setInscriptions setFormData setLoading];
        intros R; apply app_inv_head in R; discriminate. }
    apply existsb_exists in T as [insc [Hin E]]. apply JSFacts.strictEq_true in E. eauto.
  - exists Sample.plain, Sample.spaced, Sample.env1, Sample.env2.
    split; [vm_compute; reflexivity|]. split; [vm_compute; discriminate|].
    vm_compute. reflexivity.
Qed.

Lemma phone_is_kept_as_typed_witness :
  length (inscriptions Sample.three) < MAX_INSCRIPTIONS /\
  fst (validateForm Sample.three) = true /\
  rejected MsgDoublon Sample.retyped (handleSubmit Sample.env1 Sample.retyped) /\
  (exists insc,
     inscriptions (handleSubmit Sample.env1 Sample.three) = insc :: inscriptions Sample.three /\
     Inscription.telephone insc = "+237 699 00 11 22") /\
  (exists insc, In insc (inscriptions Sample.retyped) /\
                Inscription.telephone insc = "677123401").
Proof.
  assert (length (inscriptions Sample.three) < MAX_INSCRIPTIONS) as Hroom
    by (vm_compute; lia).
  assert (fst (validateForm Sample.three) = true) as Hvalid by (vm_compute; reflexivity).
  assert (rejected MsgDoublon Sample.retyped (handleSubmit Sample.env1 Sample.retyped))
    as Hrej by (vm_compute; reflexivity).
  split; [exact Hroom|]. split; [exact Hvalid|]. split; [exact Hrej|]. split.
  - apply (proj1 (phone_is_kept_as_typed Sample.env1 Sample.three) Hroom Hvalid).
  - apply (proj1 (proj2 (phone_is_kept_as_typed Sample.env1 Sample.retyped)) Hrej).
Defined.

(** * Further properties *)

Section MoreFacts.

Lemma rejected_firstFailure (env : Env) (st : State) (msg : Message) :
  rejected msg st (handleSubmit env st) <-> firstFailure spec_checks st = Some msg.
Proof.
  unfold rejected. rewrite handleSubmit_firstFailure.
  destruct (firstFailure spec_checks st) as [m|]; split; intros H.
  - apply (f_equal toasts) in H. simpl in H. apply app_inv_head in H.
    injection H as ->. reflexivity.
  - injection H as ->. reflexivity.
  - apply (f_equal toasts) in H. simpl in H. apply app_inv_head in H. discriminate.
  - discriminate.
Qed.

Lemma accepted_state (env : Env) (st : State) :
  length (inscriptions st) < MAX_INSCRIPTIONS -> fst (validateForm st) = true ->
  handleSubmit env st = handleSubmit_resume env st (setLoading true st).
Proof.
  intros Hroom Hvalid. pose proof (firstFailure_validateForm st Hvalid) as F.
  apply Nat.ltb_lt in Hroom. rewrite Hroom in F.
  rewrite handleSubmit_firstFailure, F. reflexivity.
Qed.

Lemma handleSubmit_currentUserId (env : Env) (st : State) :
  currentUserId (handleSubmit env st) = currentUserId st.
Proof.
  rewrite handleSubmit_firstFailure. destruct (firstFailure spec_checks st); reflexivity.
Qed.

Lemma handleDelete_currentUserId (id : string) (st : State) :
  currentUserId (handleDelete id st) = currentUserId st.
Proof.
  unfold handleDelete. destruct (List.find (hasId id) (inscriptions st)) as [x|]; [|reflexivity].
  destruct (negb (JS.strictEq (Inscription.userId x) (currentUserId st))); reflexivity.
Qed.

Lemma step_currentUserId (e : Event) (st : State) :
  currentUserId (step e st) = currentUserId st.
Proof.
  destruct e; try reflexivity;
    [apply handleSubmit_currentUserId|apply handleDelete_currentUserId].
Qed.

(** The two ways [handleDelete] ends. *)
Lemma handleDelete_cases (id : string) (st : State) :
  (deletes id st /\
   handleDelete id st =
     toast (ToastSuccess MsgSupprimee)
       (setInscriptions (List.filter (fun insc => negb (hasId id insc))) st)) \/
  (~ deletes id st /\ exists msg, rejected msg st (handleDelete id st)).
Proof.
  unfold deletes, rejected, handleDelete.
  destruct (List.find (hasId id) (inscriptions st)) as [x|].
  - destruct (negb (JS.strictEq (Inscription.userId x) (currentUserId st))).
    + right. split; [|eauto]. simpl. intros H. apply app_inv_head in H. discriminate.
    + left. split; reflexivity.
  - right. split; [|eauto]. simpl. intros H. apply app_inv_head in H. discriminate.
Qed.

Lemma same_key_same_entry {A B : Type} (f : A -> B) (l : list A) (x y : A) :
  List.NoDup (map f l) -> In x l -> In y l -> f x = f y -> x = y.
Proof.
  induction l as [|z l IH]; simpl; intros Hn Hx Hy E; [destruct Hx|].
  apply List.NoDup_cons_iff in Hn as [Hz Hn].
  destruct Hx as [->|Hx], Hy as [->|Hy]; auto.
  - destruct Hz. rewrite E. apply in_map, Hy.
  - destruct Hz. rewrite <- E. apply in_map, Hx.
Qed.

Lemma NoDup_map_around {A B : Type} (f : A -> B) (l1 l2 : list A) (x : A) :
  List.NoDup (map f (l1 ++ x :: l2)) ->
  (forall y, In y l1 -> f y <> f x) /\ (forall y, In y l2 -> f y <> f x).
Proof.
  rewrite map_app. simpl. intros H. apply List.NoDup_remove_2 in H.
  split; intros y Hy E; apply H, in_or_app; [left|right]; rewrite <- E; apply in_map, Hy.
Qed.

Lemma NoDup_filter_app {A B : Type} (f : A -> B) (p : A -> bool) (l : list A) (tail : list B) :
  List.NoDup (map f l ++ tail) -> List.NoDup (map f (List.filter p l) ++ tail).
Proof.
  induction l as [|x l IH]; simpl; intros H; [exact H|].
  apply List.NoDup_cons_iff in H as [Hx Hl]. destruct (p x); simpl; [|auto].
  apply List.NoDup_cons_iff. split; [|auto]. intros Hin. apply Hx.
  apply in_app_iff in Hin as [Hin|Hin]; apply in_or_app; [left|right; exact Hin].
  apply in_map_iff in Hin as [y [E Hy]]. apply filter_In in Hy as [Hy _].
  apply in_map_iff. eauto.
Qed.

Lemma filter_commute {A : Type} (p q : A -> bool) (l : list A) :
  List.filter p (List.filter q l) = List.filter q (List.filter p l).
Proof.
  induction l as [|x l IH]; [reflexivity|]. simpl.
  destruct (p x) eqn:P, (q x) eqn:Q; simpl; rewrite ?P, ?Q, IH; reflexivity.
Qed.

(** Deleting the id of the first entry, owned by the current browser. *)
Lemma handleDelete_head (id : string) (st : State) (x : Inscription.t)
  (l : list Inscription.t) :
  inscriptions st = x :: l ->
  Inscription.id x = id ->
  JS.strictEq (Inscription.userId x) (currentUserId st) = true ->
  (forall y, In y l -> Inscription.id y <> id) ->
  deletes id st /\ inscriptions (handleDelete id st) = l.
Proof.
  intros E Hx Ho Hl. apply (hasId_true id) in Hx.
  unfold deletes, handleDelete. rewrite E. simpl. rewrite Hx, Ho. simpl.
  rewrite E. simpl. rewrite Hx. simpl. split; [reflexivity|].
  apply (filter_keeps id l Hl).
Qed.

End MoreFacts.

(** ** Validation *)

(** X1. The phone check accepts exactly the inputs that, once their white
    space is removed, read: nothing or "+237" or "237", then "6", then eight
    or nine digits. *)
Theorem phone_check_characterised (telephone : string) :
  validPhone telephone = true <-> phoneShape (JS.removeWhiteSpace telephone).
Proof. unfold validPhone. apply PhoneFacts.phoneRegex_shape. Qed.

(** X2. A submission is rejected with the message asking for the name
    exactly when the name typed is empty or made of white space only,
    whatever the other fields and the list are. *)
Theorem blank_name_is_rejected (env : Env) (st : State) :
  rejected MsgNom st (handleSubmit env st) <->
  JS.allChars JS.isWhiteSpace (Form.nom (formData st)).
Proof.
  rewrite rejected_firstFailure, <- JSFacts.trim_empty, <- String.eqb_eq.
  unfold spec_checks, firstFailure.
  destruct (String.eqb (JS.trim (Form.nom (formData st))) ""); cbn [negb].
  - split; reflexivity.
  - split; [|discriminate]. intros H. exfalso. revert H.
    repeat (match goal with |- context [if ?b then _ else _] => destruct b end);
      discriminate.
Qed.

(** X3. Once a submission is accepted the form is empty, so submitting
    again at once adds nothing: the second submission is rejected with the
    message asking for the name. *)
Theorem second_submission_is_rejected (env1 env2 : Env) (st : State)
  (Hroom : length (inscriptions st) < MAX_INSCRIPTIONS)
  (Hvalid : fst (validateForm st) = true) :
  rejected MsgNom (handleSubmit env1 st) (handleSubmit env2 (handleSubmit env1 st)) /\
  inscriptions (handleSubmit env2 (handleSubmit env1 st)) =
    newInscription env1 st :: inscriptions st.
Proof.
  assert (rejected MsgNom (handleSubmit env1 st) (handleSubmit env2 (handleSubmit env1 st)))
    as R.
  { apply rejected_firstFailure. rewrite (accepted_state env1 st Hroom Hvalid).
    reflexivity. }
  split; [exact R|]. rewrite R, (accepted_state env1 st Hroom Hvalid). reflexivity.
Qed.

Lemma second_submission_is_rejected_witness :
  length (inscriptions Sample.three) < MAX_INSCRIPTIONS /\
  fst (validateForm Sample.three) = true /\
  length (inscriptions (handleSubmit Sample.env2 (handleSubmit Sample.env1 Sample.three))) = 4.
Proof.
  assert (length (inscriptions Sample.three) < MAX_INSCRIPTIONS) as Hroom
    by (vm_compute; lia).
  assert (fst (validateForm Sample.three) = true) as Hvalid by (vm_compute; reflexivity).
  split; [exact Hroom|]. split; [exact Hvalid|].
  rewrite (proj2 (second_submission_is_rejected Sample.env1 Sample.env2 Sample.three
                    Hroom Hvalid)).
  reflexivity.
Defined.

(** X4. A registration just made can be withdrawn by the browser that made
    it: when the id drawn is not in the list, deleting that id after the
    accepted submission gives back the list as it was. *)
Theorem submission_can_be_withdrawn (env : Env) (st : State)
  (Hroom : length (inscriptions st) < MAX_INSCRIPTIONS)
  (Hvalid : fst (validateForm st) = true)
  (Hfresh : ~ In (freshId env) (map Inscription.id (inscriptions st))) :
  deletes (freshId env) (handleSubmit env st) /\
  inscriptions (handleDelete (freshId env) (handleSubmit env st)) = inscriptions st.
Proof.
  assert (forall x, In x (inscriptions st) -> Inscription.id x <> freshId env) as Hids
    by (intros x Hx E; apply Hfresh; rewrite <- E; apply in_map, Hx).
  rewrite (accepted_state env st Hroom Hvalid).
  apply (handleDelete_head (freshId env) _ (newInscription env st) (inscriptions st));
    try reflexivity.
  - apply JSFacts.strictEq_refl.
  - exact Hids.
Qed.

Lemma submission_can_be_withdrawn_witness :
  length (inscriptions Sample.three) < MAX_INSCRIPTIONS /\
  fst (validateForm Sample.three) = true /\
  ~ In (freshId Sample.env1) (map Inscription.id (inscriptions Sample.three)) /\
  inscriptions (handleDelete (freshId Sample.env1) (handleSubmit Sample.env1 Sample.three)) =
    inscriptions Sample.three.
Proof.
  assert (length (inscriptions Sample.three) < MAX_INSCRIPTIONS) as Hroom
    by (vm_compute; lia).
  assert (fst (validateForm Sample.three) = true) as Hvalid by (vm_compute; reflexivity).
  assert (~ In (freshId Sample.env1) (map Inscription.id (inscriptions Sample.three)))
    as Hfresh by (vm_compute; intuition discriminate).
  split; [exact Hroom|]. split; [exact Hvalid|]. split; [exact Hfresh|].
  apply (submission_can_be_withdrawn Sample.env1 Sample.three Hroom Hvalid Hfresh).
Defined.

(** ** Deletion *)

(** X5. After a deletion that went through no entry carries the id any
    more, so deleting the same id again is answered "not found" and changes
    nothing. *)
Theorem deleted_id_is_gone (id : string) (st : State) (Hdel : deletes id st) :
  (forall x, In x (inscriptions (handleDelete id st)) -> Inscription.id x <> id) /\
  rejected MsgNonTrouvee (handleDelete id st) (handleDelete id (handleDelete id st)).
Proof.
  assert (forall x, In x (inscriptions (handleDelete id st)) -> Inscription.id x <> id)
    as Hgone.
  { destruct (handleDelete_cases id st) as [[_ E]|[Hn _]]; [|contradiction].
    rewrite E. simpl. intros x Hx. apply filter_In in Hx as [_ Hx].
    apply negb_true_iff in Hx. apply (hasId_false id). exact Hx. }
  split; [exact Hgone|].
  unfold rejected. unfold handleDelete at 1.
  rewrite (find_absent id _ Hgone). reflexivity.
Qed.

Lemma deleted_id_is_gone_witness :
  deletes (Inscription.id (Sample.entry 1)) Sample.mixed /\
  rejected MsgNonTrouvee
    (handleDelete (Inscription.id (Sample.entry 1)) Sample.mixed)
    (handleDelete (Inscription.id (Sample.entry 1))
       (handleDelete (Inscription.id (Sample.entry 1)) Sample.mixed)).
Proof.
  assert (deletes (Inscription.id (Sample.entry 1)) Sample.mixed) as Hdel
    by (vm_compute; reflexivity).
  split; [exact Hdel|].
  apply (deleted_id_is_gone (Inscription.id (Sample.entry 1)) Sample.mixed Hdel).
Defined.

Section Survival.

Lemma step_keeps_foreign (e : Event) (st : State) (insc : Inscription.t) :
  List.NoDup (map Inscription.id (inscriptions st)) ->
  In insc (inscriptions st) ->
  Inscription.userId insc <> currentUserId st ->
  In insc (inscriptions (step e st)).
Proof.
  intros Hn Hin Ho. pose proof (step_inscriptions e st) as E.
  destruct e; try (rewrite E; exact Hin).
  - rewrite E, handleSubmit_inscriptions.
    destruct (firstFailure spec_checks st); [exact Hin|right; exact Hin].
  - rewrite E. unfold handleDelete.
    destruct (List.find (hasId id) (inscriptions st)) as [x|] eqn:F; [|exact Hin].
    destruct (JS.strictEq (Inscription.userId x) (currentUserId st)) eqn:O; [|exact Hin].
    simpl. apply filter_In. split; [exact Hin|]. apply negb_true_iff.
    destruct (hasId id insc) eqn:Hi; [exfalso|reflexivity].
    apply find_some in F as [Hx Hxi].
    apply (hasId_true id) in Hi. apply (hasId_true id) in Hxi.
    assert (insc = x) as ->
      by (apply (same_key_same_entry Inscription.id (inscriptions st)); congruence).
    apply JSFacts.strictEq_true in O. contradiction.
Qed.

Lemma step_keeps_ids (e : Event) (es : list Event) (st : State) :
  List.NoDup (map Inscription.id (inscriptions st) ++ submittedIds (e :: es)) ->
  List.NoDup (map Inscription.id (inscriptions (step e st)) ++ submittedIds es).
Proof.
  intros H. pose proof (step_inscriptions e st) as E.
  destruct e; try (rewrite E; exact H).
  - rewrite E, handleSubmit_inscriptions. simpl in H.
    destruct (firstFailure spec_checks st).
    + apply List.NoDup_remove_1 in H. exact H.
    + simpl. apply List.NoDup_cons_iff. split.
      * apply List.NoDup_remove_2 in H. exact H.
      * apply List.NoDup_remove_1 in H. exact H.
  - rewrite E. simpl in H.
    destruct (handleDelete_inscriptions id st) as [-> | ->]; [exact H|].
    apply NoDup_filter_app. exact H.
Qed.

End Survival.

(** X6. No sequence of events of the page removes the registration of
    another browser, as long as ids are distinct: those of the list, and
    those drawn by the submissions of the sequence.  The ids of the list
    stay distinct. *)
Theorem foreign_entries_survive (es : list Event) (st : State) (insc : Inscription.t)
  (Hids : List.NoDup (map Inscription.id (inscriptions st) ++ submittedIds es))
  (Hin : In insc (inscriptions st))
  (Hforeign : Inscription.userId insc <> currentUserId st) :
  In insc (inscriptions (run es st)) /\
  List.NoDup (map Inscription.id (inscriptions (run es st))).
Proof.
  revert st Hids Hin Hforeign. induction es as [|e es IH]; intros st Hids Hin Hforeign.
  - simpl in Hids. rewrite app_nil_r in Hids. split; assumption.
  - rewrite run_cons. apply IH.
    + apply step_keeps_ids, Hids.
    + apply step_keeps_foreign; [|exact Hin|exact Hforeign].
      apply List.NoDup_app_remove_r in Hids. exact Hids.
    + rewrite step_currentUserId. exact Hforeign.
Qed.

Lemma foreign_entries_survive_witness :
  List.NoDup (map Inscription.id (inscriptions Sample2.shared) ++
              submittedIds Sample2.visit) /\
  In Sample.foreign (inscriptions Sample2.shared) /\
  Inscription.userId Sample.foreign <> currentUserId Sample2.shared /\
  In Sample.foreign (inscriptions (run Sample2.visit Sample2.shared)).
Proof.
  assert (List.NoDup (map Inscription.id (inscriptions Sample2.shared) ++
                      submittedIds Sample2.visit))
    as Hids by (vm_compute; repeat constructor; simpl; intuition discriminate).
  assert (In Sample.foreign (inscriptions Sample2.shared)) as Hin by (left; reflexivity).
  assert (Inscription.userId Sample.foreign <> currentUserId Sample2.shared) as Hforeign
    by (vm_compute; discriminate).
  split; [exact Hids|]. split; [exact Hin|]. split; [exact Hforeign|].
  apply (foreign_entries_survive Sample2.visit Sample2.shared Sample.foreign
           Hids Hin Hforeign).
Defined.

(** X7. The delete button of a card always works when ids are distinct: for
    an entry shown in the view and owned by the current browser,
    [handleDelete] on its id goes through, removes that entry and no other,
    and the list is one entry shorter. *)
Theorem delete_button_works (st : State) (insc : Inscription.t)
  (Hids : List.NoDup (map Inscription.id (inscriptions st)))
  (Hshown : In insc (filteredInscriptions st))
  (Hbutton : deleteButton st insc = true) :
  deletes (Inscription.id insc) st /\
  S (length (inscriptions (handleDelete (Inscription.id insc) st))) =
    length (inscriptions st) /\
  ~ In insc (inscriptions (handleDelete (Inscription.id insc) st)) /\
  (forall x, In x (inscriptions st) -> x <> insc ->
             In x (inscriptions (handleDelete (Inscription.id insc) st))).
Proof.
  apply filter_In in Hshown as [Hin _].
  apply in_split in Hin as [l1 [l2 E]]. rewrite E in Hids.
  destruct (NoDup_map_around Inscription.id l1 l2 insc Hids) as [H1 H2].
  pose proof (find_first (Inscription.id insc) l1 l2 insc H1 eq_refl) as F.
  pose proof (filter_first (Inscription.id insc) l1 l2 insc H1 eq_refl) as G.
  rewrite (filter_keeps (Inscription.id insc) l2 H2) in G.
  unfold deleteButton in Hbutton.
  assert (handleDelete (Inscription.id insc) st =
          toast (ToastSuccess MsgSupprimee) (setInscriptions (fun _ => l1 ++ l2) st)) as D.
  { unfold handleDelete. rewrite E, F, Hbutton. simpl. unfold setInscriptions.
    rewrite E, G. reflexivity. }
  split; [unfold deletes; rewrite D; reflexivity|].
  rewrite D, E. simpl. split; [rewrite !length_app; simpl; lia|]. split.
  - intros Hin. apply in_app_iff in Hin as [Hin|Hin];
      [apply (H1 insc Hin)|apply (H2 insc Hin)]; reflexivity.
  - intros x Hx Hne. apply in_app_iff in Hx as [Hx|[Hx|Hx]]; apply in_app_iff; auto.
    congruence.
Qed.

Lemma delete_button_works_witness :
  List.NoDup (map Inscription.id (inscriptions Sample.mixed)) /\
  In (Sample.entry 1) (filteredInscriptions Sample.mixed) /\
  deleteButton Sample.mixed (Sample.entry 1) = true /\
  deletes (Inscription.id (Sample.entry 1)) Sample.mixed.
Proof.
  assert (List.NoDup (map Inscription.id (inscriptions Sample.mixed))) as Hids
    by (vm_compute; repeat constructor; simpl; intuition discriminate).
  assert (In (Sample.entry 1) (filteredInscriptions Sample.mixed)) as Hshown
    by (vm_compute; right; right; left; reflexivity).
  assert (deleteButton Sample.mixed (Sample.entry 1) = true) as Hbutton
    by (vm_compute; reflexivity).
  split; [exact Hids|]. split; [exact Hshown|]. split; [exact Hbutton|].
  apply (delete_button_works Sample.mixed (Sample.entry 1) Hids Hshown Hbutton).
Defined.

(** X8. Deleting and filtering commute: after a deletion that went through,
    the view is the former view without the entries of that id, the shown
    entries keeping their order; after a deletion that was refused the view
    is as before. *)
Theorem view_after_deletion (id : string) (st : State) :
  (deletes id st ->
   filteredInscriptions (handleDelete id st) =
     List.filter (fun insc => negb (hasId id insc)) (filteredInscriptions st)) /\
  (~ deletes id st ->
   filteredInscriptions (handleDelete id st) = filteredInscriptions st).
Proof.
  destruct (handleDelete_cases id st) as [[Hd E]|[Hn [msg R]]]; split; intros H;
    try contradiction.
  - rewrite E. unfold filteredInscriptions. simpl. apply filter_commute.
  - rewrite R. reflexivity.
Qed.

Lemma view_after_deletion_witness :
  deletes (Inscription.id (Sample.entry 0)) Sample.track_iw /\
  ~ deletes (Inscription.id Sample.foreign) Sample.track_iw /\
  filteredInscriptions (handleDelete (Inscription.id (Sample.entry 0)) Sample.track_iw) =
    [Sample.entry 1] /\
  filteredInscriptions (handleDelete (Inscription.id Sample.foreign) Sample.track_iw) =
    [Sample.entry 0; Sample.entry 1].
Proof.
  assert (deletes (Inscription.id (Sample.entry 0)) Sample.track_iw) as Hd
    by (vm_compute; reflexivity).
  assert (~ deletes (Inscription.id Sample.foreign) Sample.track_iw) as Hn
    by (vm_compute; discriminate).
  split; [exact Hd|]. split; [exact Hn|]. split.
  - rewrite (proj1 (view_after_deletion (Inscription.id (Sample.entry 0)) Sample.track_iw) Hd).
    vm_compute. reflexivity.
  - rewrite (proj2 (view_after_deletion (Inscription.id Sample.foreign) Sample.track_iw) Hn).
    vm_compute. reflexivity.
Defined.

(** ** The view and its controls *)

Section ControlFacts.

Lemma labelIn_unknown (table : list Choice.t) (value : string) :
  ~ In value (map Choice.value table) -> labelIn table value = value.
Proof.
  intros H. unfold labelIn.
  destruct (List.find _ table) as [c|] eqn:F; [|reflexivity].
  apply find_some in F as [Hc E]. apply JSFacts.strictEq_true in E.
  destruct H. rewrite <- E. apply in_map, Hc.
Qed.

Lemma labelIn_not_empty (table : list Choice.t) (value : string) :
  value <> "" -> labelIn table value <> "".
Proof.
  intros H. unfold labelIn. destruct (List.find _ table) as [c|]; [|exact H].
  destruct (JS.truthy (Choice.label c)) eqn:T; [|exact H].
  intros E. apply JSFacts.truthy_false in E. congruence.
Qed.

Lemma selectorChoice_not_all (value : string) : selectorChoice value <> "all".
Proof.
  unfold selectorChoice. destruct (JS.strictEq value "all") eqn:E; [discriminate|].
  apply JSFacts.strictEq_false. exact E.
Qed.

Lemma selector_back (filter : string) :
  filter <> "all" -> selectorChoice (selectorValue filter) = filter.
Proof.
  intros H. unfold selectorValue, JS.truthy.
  destruct (String.eqb_spec filter "") as [->|Hne]; [reflexivity|]. simpl.
  unfold selectorChoice. apply JSFacts.strictEq_false in H. rewrite H. reflexivity.
Qed.


End ControlFacts.

(** X9. An accepted submission shows in the view at once when the new
    registration passes the filters in force, at the head of the entries
    shown; otherwise the view stays as it was. *)
Theorem view_after_submission (env : Env) (st : State)
  (Hroom : length (inscriptions st) < MAX_INSCRIPTIONS)
  (Hvalid : fst (validateForm st) = true) :
  (selected st (newInscription env st) ->
   filteredInscriptions (handleSubmit env st) =
     newInscription env st :: filteredInscriptions st) /\
  (~ selected st (newInscription env st) ->
   filteredInscriptions (handleSubmit env st) = filteredInscriptions st).
Proof.
  rewrite (accepted_state env st Hroom Hvalid).
  unfold filteredInscriptions. cbn [handleSubmit_resume toast setLoading setFormData
    setInscriptions inscriptions searchNom filterFiliere filterNiveau List.filter].
  pose proof (keep_selected st (newInscription env st)) as K.
  destruct (matchNom (searchNom st) (newInscription env st) &&
            matchFiliere (filterFiliere st) (newInscription env st) &&
            matchNiveau (filterNiveau st) (newInscription env st)).
  - split; [reflexivity|]. intros H. destruct H. apply K. reflexivity.
  - split; [|reflexivity]. intros H. apply K in H. discriminate.
Qed.

Lemma view_after_submission_witness :
  length (inscriptions Sample.three) < MAX_INSCRIPTIONS /\
  fst (validateForm Sample.three) = true /\
  selected Sample.three (newInscription Sample.env1 Sample.three) /\
  filteredInscriptions (handleSubmit Sample.env1 Sample.three) =
    newInscription Sample.env1 Sample.three :: filteredInscriptions Sample.three.
Proof.
  assert (length (inscriptions Sample.three) < MAX_INSCRIPTIONS) as Hroom
    by (vm_compute; lia).
  assert (fst (validateForm Sample.three) = true) as Hvalid by (vm_compute; reflexivity).
  assert (selected Sample.three (newInscription Sample.env1 Sample.three)) as Hsel
    by (repeat split; left; reflexivity).
  split; [exact Hroom|]. split; [exact Hvalid|]. split; [exact Hsel|].
  apply (proj1 (view_after_submission Sample.env1 Sample.three Hroom Hvalid) Hsel).
Defined.



(** X11. The word "all" of the filter selectors never collides with a
    choice: what a selector stores is never "all", showing a stored filter
    and choosing what is shown gives the filter back, and choosing any track
    of [FILIERES] (any level of [NIVEAUX]) stores that value, after which
    every entry shown has that track (that level). *)
Theorem selector_round_trip (value : string) (st : State) :
  selectorChoice value <> "all" /\
  selectorChoice (selectorValue (selectorChoice value)) = selectorChoice value /\
  (In value (map Choice.value FILIERES) ->
   filterFiliere (step (FiliereFilterChange value) st) = value /\
   forall insc, In insc (filteredInscriptions (step (FiliereFilterChange value) st)) ->
                Inscription.filiere insc = value) /\
  (In value (map Choice.value NIVEAUX) ->
   filterNiveau (step (NiveauFilterChange value) st) = value /\
   forall insc, In insc (filteredInscriptions (step (NiveauFilterChange value) st)) ->
                Inscription.niveau insc = value).
Proof.
  split; [apply selectorChoice_not_all|].
  split; [apply selector_back, selectorChoice_not_all|].
  split; intros Hin.
  - assert (value <> "" /\ JS.strictEq value "all" = false) as [Hne Hall]
      by (simpl in Hin; intuition (subst; try discriminate; reflexivity)).
    simpl. rewrite Hall. split; [reflexivity|].
    intros insc Hi. unfold filteredInscriptions in Hi. simpl in Hi.
    apply filter_In in Hi as [_ Hk]. rewrite !andb_true_iff in Hk.
    destruct Hk as [[_ Hk] _]. apply matchFiliere_spec in Hk as [E|E]; congruence.
  - assert (value <> "" /\ JS.strictEq value "all" = false) as [Hne Hall]
      by (simpl in Hin; intuition (subst; try discriminate; reflexivity)).
    simpl. rewrite Hall. split; [reflexivity|].
    intros insc Hi. unfold filteredInscriptions in Hi. simpl in Hi.
    apply filter_In in Hi as [_ Hk]. rewrite !andb_true_iff in Hk.
    destruct Hk as [_ Hk]. apply matchNiveau_spec in Hk as [E|E]; congruence.
Qed.

Lemma selector_round_trip_witness :
  In "cmn" (map Choice.value FILIERES) /\
  In "master1" (map Choice.value NIVEAUX) /\
  filterFiliere (step (FiliereFilterChange "cmn") Sample.mixed) = "cmn" /\
  filterNiveau (step (NiveauFilterChange "master1") Sample.mixed) = "master1".
Proof.
  assert (In "cmn" (map Choice.value FILIERES)) as Hf by (vm_compute; tauto).
  assert (In "master1" (map Choice.value NIVEAUX)) as Hn by (vm_compute; tauto).
  destruct (selector_round_trip "cmn" Sample.mixed) as [_ [_ [Hcmn _]]].
  destruct (selector_round_trip "master1" Sample.mixed) as [_ [_ [_ Hm]]].
  split; [exact Hf|]. split; [exact Hn|]. split.
  - apply (proj1 (Hcmn Hf)).
  - apply (Hm Hn).
Defined.

(** X12. [getFiliereLabel] and [getNiveauLabel] give every value of their
    table its label, distinct values getting distinct labels; a value that
    is not in the table is shown as it is, and no value but the empty one is
    shown as an empty text. *)
Theorem labels_of_choices (value : string) :
  (forall c, In c FILIERES -> getFiliereLabel (Choice.value c) = Choice.label c) /\
  (forall c, In c NIVEAUX -> getNiveauLabel (Choice.value c) = Choice.label c) /\
  List.NoDup (map getFiliereLabel (map Choice.value FILIERES)) /\
  List.NoDup (map getNiveauLabel (map Choice.value NIVEAUX)) /\
  (~ In value (map Choice.value FILIERES) -> getFiliereLabel value = value) /\
  (~ In value (map Choice.value NIVEAUX) -> getNiveauLabel value = value) /\
  (value <> "" -> getFiliereLabel value <> "" /\ getNiveauLabel value <> "").
Proof.
  split; [intros c Hc; simpl in Hc; intuition (subst; reflexivity)|].
  split; [intros c Hc; simpl in Hc; intuition (subst; reflexivity)|].
  split; [vm_compute; repeat constructor; simpl; intuition discriminate|].
  split; [vm_compute; repeat constructor; simpl; intuition discriminate|].
  split; [apply labelIn_unknown|]. split; [apply labelIn_unknown|].
  intros H. split; apply labelIn_not_empty, H.
Qed.

Lemma labels_of_choices_witness :
  ~ In "droit" (map Choice.value FILIERES) /\
  ~ In "droit" (map Choice.value NIVEAUX) /\
  "droit" <> "" /\
  getFiliereLabel "droit" = "droit" /\
  getFiliereLabel "iw" = "IW".
Proof.
  assert (~ In "droit" (map Choice.value FILIERES)) as Hf
    by (vm_compute; intuition discriminate).
  assert (~ In "droit" (map Choice.value NIVEAUX)) as Hn
    by (vm_compute; intuition discriminate).
  destruct (labels_of_choices "droit") as [Hlab [_ [_ [_ [Hunknown _]]]]].
  split; [exact Hf|]. split; [exact Hn|]. split; [discriminate|].
  split; [apply (Hunknown Hf)|].
  apply (Hlab (Choice.mk "iw" "IW")). right. right. left. reflexivity.
Defined.

(** ** The browser storage *)

Section PersistenceFacts.

Variable JSON_parse : string -> option (list Inscription.t).
Variable JSON_stringify : list Inscription.t -> string.

Lemma loadInscriptions_currentUserId (storage : gmap string string) (st : State) :
  currentUserId (loadInscriptions JSON_parse storage st) = currentUserId st.
Proof.
  unfold loadInscriptions. destruct (storage !! "inscriptions") as [stored|]; [|reflexivity].
  destruct (JS.truthy stored); [|reflexivity].
  destruct (JSON_parse stored); reflexivity.
Qed.

(** What [initUserId] leaves: the identifier is stored, it is not empty, it
    is the one of the state, and the stored list is not touched. *)
Lemma initUserId_spec (generated : string) (storage : gmap string string) (st : State) :
  let result := initUserId generated storage st in
  fst result !! "userId" = Some (currentUserId (snd result)) /\
  JS.truthy (currentUserId (snd result)) = true /\
  fst result !! "inscriptions" = storage !! "inscriptions" /\
  inscriptions (snd result) = inscriptions st.
Proof.
  unfold initUserId. destruct (storage !! "userId") as [u|] eqn:E.
  - destruct (JS.truthy u) eqn:T; simpl.
    + auto.
    + rewrite lookup_insert_eq, lookup_insert_ne by discriminate. auto.
  - simpl. rewrite lookup_insert_eq, lookup_insert_ne by discriminate. auto.
Qed.

Lemma initUserId_known (generated : string) (storage : gmap string string) (st : State)
  (u : string) :
  storage !! "userId" = Some u -> JS.truthy u = true ->
  initUserId generated storage st = (storage, setCurrentUserId u st).
Proof. intros E T. unfold initUserId. rewrite E, T. reflexivity. Qed.

Lemma mount_unfold (generated : string) (storage : gmap string string) :
  mount JSON_parse JSON_stringify generated storage =
  (saveInscriptions JSON_stringify
     (loadInscriptions JSON_parse (fst (initUserId generated storage initialState))
        (snd (initUserId generated storage initialState)))
     (saveInscriptions JSON_stringify initialState
        (fst (initUserId generated storage initialState))),
   loadInscriptions JSON_parse (fst (initUserId generated storage initialState))
     (snd (initUserId generated storage initialState))).
Proof.
  unfold mount. destruct (initUserId generated storage initialState). reflexivity.
Qed.

Lemma mount_userId (generated : string) (storage : gmap string string) :
  fst (mount JSON_parse JSON_stringify generated storage) !! "userId" =
    Some (currentUserId (snd (mount JSON_parse JSON_stringify generated storage))) /\
  JS.truthy (currentUserId (snd (mount JSON_parse JSON_stringify generated storage))) = true.
Proof.
  rewrite mount_unfold. cbn [fst snd]. unfold saveInscriptions.
  rewrite !lookup_insert_ne by discriminate. rewrite loadInscriptions_currentUserId.
  destruct (initUserId_spec generated storage initialState) as [H1 [H2 _]]. auto.
Qed.

Lemma mount_saved (generated : string) (storage : gmap string string) :
  fst (mount JSON_parse JSON_stringify generated storage) !! "inscriptions" =
  Some (JSON_stringify
          (inscriptions (snd (mount JSON_parse JSON_stringify generated storage)))).
Proof.
  rewrite mount_unfold. cbn [fst snd]. unfold saveInscriptions at 1.
  apply lookup_insert_eq.
Qed.

End PersistenceFacts.

(** X13. A browser keeps its identifier: mounting the page leaves a
    non-empty identifier in [localStorage], the one of the page, and
    mounting again on what was left (a reload, whatever the clock and the
    random generator give then) yields the same identifier. *)
Theorem browser_identity_is_stable
  (JSON_parse : string -> option (list Inscription.t))
  (JSON_stringify : list Inscription.t -> string)
  (generated generated' : string) (storage : gmap string string) :
  let first := mount JSON_parse JSON_stringify generated storage in
  let second := mount JSON_parse JSON_stringify generated' (fst first) in
  currentUserId (snd first) <> "" /\
  fst first !! "userId" = Some (currentUserId (snd first)) /\
  currentUserId (snd second) = currentUserId (snd first) /\
  fst second !! "userId" = fst first !! "userId".
Proof.
  intros first second.
  destruct (mount_userId JSON_parse JSON_stringify generated storage) as [Hs Ht].
  fold first in Hs, Ht.
  assert (currentUserId (snd second) = currentUserId (snd first)) as Hsame.
  { unfold second. rewrite mount_unfold. cbn [snd].
    rewrite loadInscriptions_currentUserId.
    rewrite (initUserId_known generated' (fst first) initialState _ Hs Ht). reflexivity. }
  split; [|split; [exact Hs|split; [exact Hsame|]]].
  - intros E. rewrite E in Ht. discriminate.
  - destruct (mount_userId JSON_parse JSON_stringify generated' (fst first)) as [Hs' _].
    fold second in Hs'. rewrite Hs', Hs, Hsame. reflexivity.
Qed.

(** X14. What the page saved comes back at the next mount: when the text
    written for the list is not empty and [JSON.parse] reads it back as that
    list, mounting on the storage left by the save effect shows that list
    and stores the same text again. *)
Theorem reload_restores_list
  (JSON_parse : string -> option (list Inscription.t))
  (JSON_stringify : list Inscription.t -> string)
  (generated : string) (storage : gmap string string) (st : State)
  (Hback : JSON_parse (JSON_stringify (inscriptions st)) = Some (inscriptions st))
  (Htext : JSON_stringify (inscriptions st) <> "") :
  let reloaded :=
    mount JSON_parse JSON_stringify generated (saveInscriptions JSON_stringify st storage) in
  inscriptions (snd reloaded) = inscriptions st /\
  fst reloaded !! "inscriptions" =
    saveInscriptions JSON_stringify st storage !! "inscriptions".
Proof.
  intros reloaded.
  assert (inscriptions (snd reloaded) = inscriptions st) as Hlist.
  { unfold reloaded. rewrite mount_unfold. cbn [snd]. unfold loadInscriptions.
    destruct (initUserId_spec generated (saveInscriptions JSON_stringify st storage)
                initialState) as [_ [_ [Hkey _]]].
    cbn zeta in Hkey. rewrite Hkey. unfold saveInscriptions. rewrite lookup_insert_eq.
    apply String.eqb_neq in Htext. unfold JS.truthy. rewrite Htext, Hback. reflexivity. }
  split; [exact Hlist|].
  unfold reloaded in *. rewrite mount_saved, Hlist.
  unfold saveInscriptions. rewrite lookup_insert_eq. reflexivity.
Qed.

Lemma reload_restores_list_witness :
  Sample2.parse (Sample2.stringify (inscriptions Sample.three)) =
    Some (inscriptions Sample.three) /\
  Sample2.stringify (inscriptions Sample.three) <> "" /\
  inscriptions (snd (mount Sample2.parse Sample2.stringify "1793613600000-k3x9q2m1z"
                       (saveInscriptions Sample2.stringify Sample.three
                          Sample.storage_broken))) =
    inscriptions Sample.three.
Proof.
  assert (Sample2.parse (Sample2.stringify (inscriptions Sample.three)) =
          Some (inscriptions Sample.three)) as Hback by (vm_compute; reflexivity).
  assert (Sample2.stringify (inscriptions Sample.three) <> "") as Htext
    by (vm_compute; discriminate).
  split; [exact Hback|]. split; [exact Htext|].
  apply (reload_restores_list Sample2.parse Sample2.stringify "1793613600000-k3x9q2m1z"
           Sample.storage_broken Sample.three Hback Htext).
Defined.



(** ** The delay of a submission *)

Section DelayFacts.

Lemma ui_events_run (es : list Event) (rest : list Async.Action) :
  forallb (fun e => negb (isSubmit e)) es = true ->
  forall (st : State) (w : option State),
    Async.run (map Async.Ui es ++ rest) (Async.mkPage st w) =
    Async.run rest (Async.mkPage (run es st) w).
Proof.
  induction es as [|e es IH]; intros H st w; [reflexivity|].
  simpl in H. apply andb_true_iff in H as [He Hes].
  simpl. rewrite <- (IH Hes). destruct e; try reflexivity. discriminate.
Qed.

Lemma enabled_start (st : State) :
  Async.submitDisabled st = false -> fst (validateForm st) = true ->
  handleSubmit_start st = (true, setLoading true st).
Proof.
  intros G Hvalid. apply orb_false_iff in G as [Hfull _].
  unfold isListFull in Hfull. apply Nat.leb_gt in Hfull.
  pose proof (firstFailure_validateForm st Hvalid) as F.
  apply Nat.ltb_lt in Hfull. rewrite Hfull in F.
  rewrite handleSubmit_start_firstFailure, F. reflexivity.
Qed.

Lemma firstFailure_Maximum (st : State) :
  firstFailure spec_checks st = Some MsgMaximum -> isListFull st = true.
Proof.
  unfold spec_checks, firstFailure, isListFull.
  repeat (match goal with |- context [if ?b then _ else _] => destruct b eqn:? end);
    try discriminate.
  intros _. apply Nat.leb_le. apply Nat.ltb_ge. assumption.
Qed.

End DelayFacts.

(** X16. What happens during the 500 ms delay of a submission is kept: when
    the button is enabled and the form valid, a click, then any events other
    than a submission, then the end of the delay leave the state those
    events produced with the new registration put at the head of its list.
    The registration is the one of the form as it was at the click. *)
Theorem events_during_delay_are_kept (env : Env) (st : State) (es : list Event)
  (Henabled : Async.submitDisabled st = false)
  (Hvalid : fst (validateForm st) = true)
  (Hui : forallb (fun e => negb (isSubmit e)) es = true) :
  Async.run (Async.Click :: map Async.Ui es ++ [Async.Timer env]) (Async.mkPage st None) =
    Async.mkPage (handleSubmit_resume env st (run es (setLoading true st))) None /\
  inscriptions (Async.state (Async.run (Async.Click :: map Async.Ui es ++ [Async.Timer env])
                                       (Async.mkPage st None))) =
    newInscription env st :: inscriptions (run es (setLoading true st)).
Proof.
  assert (Async.run (Async.Click :: map Async.Ui es ++ [Async.Timer env])
                    (Async.mkPage st None) =
          Async.mkPage (handleSubmit_resume env st (run es (setLoading true st))) None) as E.
  { change (Async.run (Async.Click :: map Async.Ui es ++ [Async.Timer env])
                      (Async.mkPage st None))
      with (Async.run (map Async.Ui es ++ [Async.Timer env])
                      (Async.act Async.Click (Async.mkPage st None))).
    simpl Async.act. rewrite Henabled, (enabled_start st Henabled Hvalid).
    rewrite (ui_events_run es [Async.Timer env] Hui). reflexivity. }
  split; [exact E|]. rewrite E. reflexivity.
Qed.

Lemma events_during_delay_are_kept_witness :
  Async.submitDisabled Sample.three = false /\
  fst (validateForm Sample.three) = true /\
  forallb (fun e => negb (isSubmit e)) [Delete (Inscription.id (Sample.entry 1))] = true /\
  inscriptions (Async.state
    (Async.run [Async.Click; Async.Ui (Delete (Inscription.id (Sample.entry 1)));
                Async.Timer Sample.env1]
               (Async.mkPage Sample.three None))) =
    [newInscription Sample.env1 Sample.three; Sample.entry 0; Sample.entry 2].
Proof.
  assert (Async.submitDisabled Sample.three = false) as Henabled by (vm_compute; reflexivity).
  assert (fst (validateForm Sample.three) = true) as Hvalid by (vm_compute; reflexivity).
  assert (forallb (fun e => negb (isSubmit e)) [Delete (Inscription.id (Sample.entry 1))]
          = true) as Hui by reflexivity.
  split; [exact Henabled|]. split; [exact Hvalid|]. split; [exact Hui|].
  change [Async.Click; Async.Ui (Delete (Inscription.id (Sample.entry 1)));
          Async.Timer Sample.env1]
    with (Async.Click :: map Async.Ui [Delete (Inscription.id (Sample.entry 1))] ++
          [Async.Timer Sample.env1]).
  rewrite (proj2 (events_during_delay_are_kept Sample.env1 Sample.three
                    [Delete (Inscription.id (Sample.entry 1))] Henabled Hvalid Hui)).
  vm_compute. reflexivity.
Defined.

(** X17. The bound of 50 and the distinct phones survive events that run
    during the delay: along any sequence of clicks on the submit button
    (ignored while it is disabled), ends of delay and other events, from a
    page where no submission waits, a list of at most 50 entries stays so and
    pairwise distinct phones stay so. *)
Theorem invariants_with_delay (acts : list Async.Action) (p : Async.Page)
  (Hidle : Async.waiting p = None) :
  (length (inscriptions (Async.state p)) <= MAX_INSCRIPTIONS ->
   length (inscriptions (Async.state (Async.run acts p))) <= MAX_INSCRIPTIONS) /\
  (List.NoDup (map Inscription.telephone (inscriptions (Async.state p))) ->
   List.NoDup (map Inscription.telephone (inscriptions (Async.state (Async.run acts p))))).
Proof.
  split.
  - apply AsyncFacts.run_capacity, Hidle.
  - apply AsyncFacts.run_phones_distinct, Hidle.
Qed.

Lemma invariants_with_delay_witness :
  Async.waiting (Async.mkPage Sample.three None) = None /\
  length (inscriptions Sample.three) <= MAX_INSCRIPTIONS /\
  List.NoDup (map Inscription.telephone (inscriptions Sample.three)) /\
  length (inscriptions (Async.state
    (Async.run [Async.Click; Async.Click; Async.Ui (Delete (Inscription.id (Sample.entry 1)));
                Async.Timer Sample.env1; Async.Timer Sample.env2]
               (Async.mkPage Sample.three None)))) <= MAX_INSCRIPTIONS.
Proof.
  assert (length (inscriptions Sample.three) <= MAX_INSCRIPTIONS) as Hlen
    by (vm_compute; lia).
  assert (List.NoDup (map Inscription.telephone (inscriptions Sample.three))) as Hnd
    by (vm_compute; repeat constructor; simpl; intuition discriminate).
  split; [reflexivity|]. split; [exact Hlen|]. split; [exact Hnd|].
  apply (proj1 (invariants_with_delay
                  [Async.Click; Async.Click; Async.Ui (Delete (Inscription.id (Sample.entry 1)));
                   Async.Timer Sample.env1; Async.Timer Sample.env2]
                  (Async.mkPage Sample.three None) eq_refl) Hlen).
Defined.

(** X18. The message "maximum reached" is out of reach of the form: when
    [handleSubmit] would answer it the list is full, so the submit button
    is disabled and a click changes nothing. *)
Theorem capacity_message_is_unreachable (env : Env) (st : State) (w : option State)
  (Hmax : rejected MsgMaximum st (handleSubmit env st)) :
  isListFull st = true /\
  Async.submitDisabled st = true /\
  Async.act Async.Click (Async.mkPage st w) = Async.mkPage st w.
Proof.
  apply rejected_firstFailure in Hmax. apply firstFailure_Maximum in Hmax.
  split; [exact Hmax|]. unfold Async.act, Async.submitDisabled. simpl.
  rewrite Hmax. split; reflexivity.
Qed.

Lemma capacity_message_is_unreachable_witness :
  rejected MsgMaximum Sample.full (handleSubmit Sample.env1 Sample.full) /\
  Async.act Async.Click (Async.mkPage Sample.full None) = Async.mkPage Sample.full None.
Proof.
  assert (rejected MsgMaximum Sample.full (handleSubmit Sample.env1 Sample.full)) as Hmax
    by (vm_compute; reflexivity).
  split; [exact Hmax|].
  apply (capacity_message_is_unreachable Sample.env1 Sample.full None Hmax).
Defined.

(** ** The form and the registrations it makes *)

(** X19. The fields of the form are independent: two changes of different
    fields give the same form in either order, and of two changes of one
    field the last one stands.  A change under a name that is none of the
    four fields leaves them all. *)
Theorem form_fields_are_independent (name name' value value' : string) (f : Form.t) :
  (name <> name' ->
   Form.set name value (Form.set name' value' f) =
   Form.set name' value' (Form.set name value f)) /\
  Form.set name value (Form.set name value' f) = Form.set name value f /\
  (~ In name ["nom"; "filiere"; "niveau"; "telephone"] -> Form.set name value f = f).
Proof.
  unfold Form.set. split; [|split].
  - intros Hne.
    repeat (match goal with
            | |- context [String.eqb ?a ?b] => destruct (String.eqb_spec a b); subst
            end);
      simpl; try reflexivity; try congruence.
  - repeat (match goal with
            | |- context [String.eqb ?a ?b] => destruct (String.eqb_spec a b); subst
            end);
      simpl; try reflexivity; try congruence.
  - intros Hout.
    repeat (match goal with
            | |- context [String.eqb ?a ?b] => destruct (String.eqb_spec a b); subst
            end);
      simpl; try reflexivity; destruct Hout; simpl; tauto.
Qed.

Lemma form_fields_are_independent_witness :
  "nom" <> "telephone" /\
  ~ In "email" ["nom"; "filiere"; "niveau"; "telephone"] /\
  Form.set "nom" "Awa" (Form.set "telephone" "677123456" Form.empty) =
    Form.set "telephone" "677123456" (Form.set "nom" "Awa" Form.empty) /\
  Form.set "email" "awa@example.org" Form.empty = Form.empty.
Proof.
  assert ("nom" <> "telephone") as Hne by discriminate.
  assert (~ In "email" ["nom"; "filiere"; "niveau"; "telephone"]) as Hout
    by (simpl; intuition discriminate).
  split; [exact Hne|]. split; [exact Hout|]. split.
  - apply (proj1 (form_fields_are_independent "nom" "telephone" "Awa" "677123456"
                    Form.empty) Hne).
  - apply (proj2 (proj2 (form_fields_are_independent "email" "email" "awa@example.org" ""
                           Form.empty)) Hout).
Defined.

Section MadeFacts.

Lemma validateForm_fields (st : State) :
  fst (validateForm st) = true ->
  JS.trim (Form.nom (formData st)) <> "" /\
  Form.filiere (formData st) <> "" /\
  Form.niveau (formData st) <> "" /\
  validPhone (Form.telephone (formData st)) = true.
Proof.
  unfold validateForm, JS.truthy.
  destruct (String.eqb_spec (JS.trim (Form.nom (formData st))) ""); [discriminate|].
  destruct (String.eqb_spec (Form.filiere (formData st)) ""); [discriminate|].
  destruct (String.eqb_spec (Form.niveau (formData st)) ""); [discriminate|].
  destruct (validPhone (Form.telephone (formData st))); [|discriminate].
  auto.
Qed.

Lemma step_adds_own (e : Event) (st : State) (x : Inscription.t) :
  In x (inscriptions (step e st)) ->
  In x (inscriptions st) \/
  (wellFormed x /\ Inscription.userId x = currentUserId st).
Proof.
  intros Hx. pose proof (step_inscriptions e st) as E.
  destruct e; try (rewrite E in Hx; left; exact Hx).
  - rewrite E, handleSubmit_inscriptions in Hx.
    destruct (firstFailure spec_checks st) eqn:F; [left; exact Hx|].
    destruct Hx as [<-|Hx]; [right|left; exact Hx].
    apply firstFailure_None in F as [Hvalid _].
    split; [apply (validateForm_fields st Hvalid)|reflexivity].
  - rewrite E in Hx. destruct (handleDelete_inscriptions id st) as [H|H];
      rewrite H in Hx; [left; exact Hx|].
    apply filter_In in Hx as [Hx _]. left. exact Hx.
Qed.

End MadeFacts.

(** X20. Whatever the events, a page adds registrations of its own browser
    only, and only ones that satisfy the rules of the form: every entry of
    the list after a run was in the list before, or has a name that is not
    blank, a track, a level, a phone that passes the phone check, and the
    identifier of the current browser as owner. *)
Theorem page_adds_own_valid_entries (es : list Event) (st : State) (x : Inscription.t) :
  In x (inscriptions (run es st)) ->
  In x (inscriptions st) \/
  (wellFormed x /\ Inscription.userId x = currentUserId st).
Proof.
  revert st. induction es as [|e es IH]; intros st Hx; [left; exact Hx|].
  rewrite run_cons in Hx. destruct (IH (step e st) Hx) as [Hs|[Hw Ho]].
  - apply (step_adds_own e st x Hs).
  - right. split; [exact Hw|]. rewrite Ho. apply step_currentUserId.
Qed.

Lemma page_adds_own_valid_entries_witness :
  In (newInscription Sample.env1 Sample2.shared)
     (inscriptions (run [Submit Sample.env1] Sample2.shared)) /\
  wellFormed (newInscription Sample.env1 Sample2.shared).
Proof.
  assert (In (newInscription Sample.env1 Sample2.shared)
             (inscriptions (run [Submit Sample.env1] Sample2.shared))) as Hin
    by (vm_compute; left; reflexivity).
  split; [exact Hin|].
  destruct (page_adds_own_valid_entries [Submit Sample.env1] Sample2.shared _ Hin)
    as [Hold|[Hw _]]; [|exact Hw].
  exfalso. vm_compute in Hold. intuition discriminate.
Defined.

(** ** Refining a search *)

Section NarrowFacts.






End NarrowFacts.

